(** * Citation classification, deduplication and persistence

    A shallow embedding of [citation.py] (the [Citation] dataclass and the
    [CitationManager] class), of the summary helper of [ai.py] and of the
    library-creation path of [citationCollector.py], followed by the
    properties of the specification that concern them.

    Modelling conventions.
    - A Python [str] is a [string]; one [ascii] stands for one code point
      below 256, classified the way CPython classifies that code point
      ([str.isspace], [str.lower], the regular-expression classes [\s], [\d]
      and [\w] for [str] patterns).
    - [re.search] on the patterns of the source is written with a few matcher
      combinators in continuation-passing style; a quantified character class
      is greedy and backtracks, as in [re].
    - [datetime] and its [isoformat]/[fromisoformat] pair belong to the Python
      library: they are parameters of the development, with the documented
      inverse law as the only assumption where it is needed. A concrete
      instance (naive timestamps) is given in [NaiveDatetime].
    - [json.dump]/[json.load] are not modelled as text: a file holds the
      decoded JSON document, or cannot be read or decoded. Opening a file
      for writing can fail; a write that fails half-way is not modelled.
    - The record fields have the types the dataclass declares. A persisted
      field of another JSON type, which Python would store unchecked, puts
      [loadCitations] outside the model (result [None]).
    - Console output ([print]) is not part of the model. *)

From Stdlib Require Import ZArith Lia Bool Ascii String List DecimalString.
From stdpp Require Import base option list strings gmap sorting.

Open Scope string_scope.

(** [simpl] computes the concatenation of strings, as it does for lists. *)
Arguments String.append !s1 s2 : simpl nomatch.

(** ** Python string primitives *)

Module Py.

Definition code (c : ascii) : nat := nat_of_ascii c.

Definition in_range (lo hi : nat) (c : ascii) : bool :=
  (lo <=? code c)%nat && (code c <=? hi)%nat.

(** [str.isspace] on one code point below 256; also the class [\s]. *)
Definition isspace (c : ascii) : bool :=
  in_range 9 13 c || in_range 28 32 c
  || (code c =? 133)%nat || (code c =? 160)%nat.

(** The class [\d] ([str.isdecimal]) below 256: the ASCII digits. *)
Definition isdecimal (c : ascii) : bool := in_range 48 57 c.

(** The classes [[A-Z]], [[a-z]] and [[A-Za-z]]. *)
Definition isupper_ascii (c : ascii) : bool := in_range 65 90 c.
Definition islower_ascii (c : ascii) : bool := in_range 97 122 c.
Definition isalpha_ascii (c : ascii) : bool :=
  isupper_ascii c || islower_ascii c.

(** [str.isalnum] below 256: letters (with the Latin-1 letters, the
    ordinal indicators and the micro sign), decimal digits, and the
    superscript digits and vulgar fractions, which are numeric. *)
Definition isalnum (c : ascii) : bool :=
  isalpha_ascii c || isdecimal c
  || (code c =? 170)%nat || (code c =? 178)%nat || (code c =? 179)%nat
  || (code c =? 181)%nat || (code c =? 185)%nat || (code c =? 186)%nat
  || in_range 188 190 c
  || in_range 192 214 c || in_range 216 246 c || in_range 248 255 c.

(** The class [\w]. *)
Definition isword (c : ascii) : bool := isalnum c || (code c =? 95)%nat.

(** [str.lower] on one code point below 256. *)
Definition lower_char (c : ascii) : ascii :=
  if isupper_ascii c || in_range 192 214 c || in_range 216 222 c
  then ascii_of_nat (code c + 32) else c.

Fixpoint lower (s : string) : string :=
  match s with
  | EmptyString => EmptyString
  | String c s' => String (lower_char c) (lower s')
  end.

Definition is_empty (s : string) : bool :=
  match s with EmptyString => true | String _ _ => false end.

(** [str.lstrip()], [str.rstrip()] and [str.strip()]. *)
Fixpoint lstrip (s : string) : string :=
  match s with
  | EmptyString => EmptyString
  | String c s' => if isspace c then lstrip s' else s
  end.

Fixpoint rstrip (s : string) : string :=
  match s with
  | EmptyString => EmptyString
  | String c s' =>
      let r := rstrip s' in
      if is_empty r && isspace c then EmptyString else String c r
  end.

Definition strip (s : string) : string := rstrip (lstrip s).

(** [s.startswith(p)] *)
Fixpoint startswith (p s : string) : bool :=
  match p, s with
  | EmptyString, _ => true
  | String a p', String b s' => Ascii.eqb a b && startswith p' s'
  | String _ _, EmptyString => false
  end.

(** [p in s] *)
Fixpoint contains (p s : string) : bool :=
  startswith p s
  || match s with
     | EmptyString => false
     | String _ s' => contains p s'
     end.

(** [s[n:]] and [s[:n]] for a non-negative [n]. *)
Fixpoint drop (n : nat) (s : string) : string :=
  match n, s with
  | S n', String _ s' => drop n' s'
  | _, _ => s
  end.

Fixpoint take (n : nat) (s : string) : string :=
  match n, s with
  | S n', String c s' => String c (take n' s')
  | _, _ => EmptyString
  end.

(** [s.split('\n')] *)
Definition newline : ascii := ascii_of_nat 10.

Fixpoint split_lines (s : string) : list string :=
  match s with
  | EmptyString => [EmptyString]
  | String c s' =>
      if Ascii.eqb c newline then EmptyString :: split_lines s'
      else match split_lines s' with
           | l :: ls => String c l :: ls
           | [] => [String c EmptyString]
           end
  end.

(** [str(n)] for a natural number. *)
Definition str_of_nat (n : nat) : string :=
  NilEmpty.string_of_uint (Nat.to_uint n).

(** [sep.join(parts)] *)
Fixpoint join (sep : string) (parts : list string) : string :=
  match parts with
  | [] => EmptyString
  | [p] => p
  | p :: ps => p ++ sep ++ join sep ps
  end.

End Py.

(** ** Regular-expression matchers

    A matcher reads a prefix of its input and hands the rest to its
    continuation; [None] is a failed match. *)

Module Re.

Section Matchers.
Context {R : Type}.

(** A literal string. *)
Fixpoint lit (p : string) (k : string -> option R) (s : string) : option R :=
  match p with
  | EmptyString => k s
  | String a p' =>
      match s with
      | String b s' => if Ascii.eqb a b then lit p' k s' else None
      | EmptyString => None
      end
  end.

(** A literal string under [re.IGNORECASE]. *)
Fixpoint lit_ci (p : string) (k : string -> option R) (s : string) : option R :=
  match p with
  | EmptyString => k s
  | String a p' =>
      match s with
      | String b s' =>
          if Ascii.eqb (Py.lower_char a) (Py.lower_char b)
          then lit_ci p' k s' else None
      | EmptyString => None
      end
  end.

(** One character of a class. *)
Definition one (cls : ascii -> bool) (k : string -> option R) (s : string)
  : option R :=
  match s with
  | String c s' => if cls c then k s' else None
  | EmptyString => None
  end.

Definition may_take (hi : option nat) : bool :=
  match hi with Some O => false | _ => true end.

(** A character class repeated between [lo] and [hi] times ([hi = None]:
    unbounded). Greedy: the longest run is tried first, then shorter
    ones. The continuation receives the text the repetition matched. *)
Fixpoint rep (cls : ascii -> bool) (lo : nat) (hi : option nat)
    (k : string -> string -> option R) (s : string) {struct s} : option R :=
  let stop := match lo with O => k EmptyString s | S _ => None end in
  match s with
  | String c s' =>
      if cls c && may_take hi then
        match rep cls (Nat.pred lo) (Nat.pred <$> hi)
                (fun m => k (String c m)) s' with
        | Some r => Some r
        | None => stop
        end
      else stop
  | EmptyString => stop
  end.

(** [re.search]: the leftmost position at which the matcher succeeds. *)
Fixpoint search (m : string -> option R) (s : string) : option R :=
  match m s with
  | Some r => Some r
  | None =>
      match s with
      | String _ s' => search m s'
      | EmptyString => None
      end
  end.
End Matchers.

Definition star {R} cls (k : string -> option R) := rep cls 0 None (fun _ => k).
Definition plus {R} cls (k : string -> option R) := rep cls 1 None (fun _ => k).
Definition times {R} cls n (k : string -> option R) :=
  rep cls n (Some n) (fun _ => k).

Definition accept : string -> option unit := fun _ => Some tt.

Definition found {R} (o : option R) : bool :=
  match o with Some _ => true | None => false end.

End Re.

(** ** The classifier: [CitationManager.isPubmedCitation] *)

Definition triple_quote : string :=
  let q := ascii_of_nat 34 in String q (String q (String q EmptyString)).

Definition code_indicators : list string :=
  [ "def "; "import "; "class "; "return "; "if __name__";
    "from typing"; "PyQt"; "QApplication"; "print("; triple_quote ].

(** [any(indicator in text for indicator in code_indicators)] *)
Definition has_code_indicator (text : string) : bool :=
  existsb (fun indicator => Py.contains indicator text) code_indicators.

(** [PMID:\s*\d+] *)
Definition pmid_pattern : string -> option unit :=
  Re.lit "PMID:" (Re.star Py.isspace (Re.plus Py.isdecimal Re.accept)).

(** [doi:\s*10\.\d+] *)
Definition doi_pattern : string -> option unit :=
  Re.lit "doi:" (Re.star Py.isspace (Re.lit "10." (Re.plus Py.isdecimal Re.accept))).

(** [\d{4}[;\s][A-Za-z\s]+\d+\(\d+\):\d+] *)
Definition journal_pattern : string -> option unit :=
  Re.times Py.isdecimal 4
    (Re.one (fun c => Ascii.eqb c ";" || Py.isspace c)
      (Re.plus (fun c => Py.isalpha_ascii c || Py.isspace c)
        (Re.plus Py.isdecimal
          (Re.lit "("
            (Re.plus Py.isdecimal
              (Re.lit "):" (Re.plus Py.isdecimal Re.accept))))))).

(** [[A-Z][a-z]+\s+[A-Z]{1,3}[a-z]*.*\d{4}], the part after the anchor of
    [^[A-Z][a-z]+...]. Without [re.MULTILINE] the anchor holds at the start
    of the text only, so [re.search] on the anchored pattern is one match
    attempt there. *)
Definition author_year_pattern : string -> option unit :=
  Re.one Py.isupper_ascii
    (Re.plus Py.islower_ascii
      (Re.plus Py.isspace
        (Re.rep Py.isupper_ascii 1 (Some 3) (fun _ =>
          Re.star Py.islower_ascii
            (Re.star (fun c => negb (Ascii.eqb c Py.newline))
              (Re.times Py.isdecimal 4 Re.accept)))))).

(** [sum] of a list of booleans. *)
Definition py_sum (l : list bool) : nat :=
  List.length (List.filter (fun b => b) l).

Definition isPubmedCitation (text : string) : bool :=
  let text := Py.strip text in
  if (String.length text <? 20)%nat then false
  else if has_code_indicator text then false
  else
    let has_pmid := Re.found (Re.search pmid_pattern text) in
    let has_doi := Re.found (Re.search doi_pattern text) in
    let has_journal_format := Re.found (Re.search journal_pattern text) in
    let has_author_year := Re.found (author_year_pattern text) in
    let strong_indicators :=
      [has_pmid; has_doi; has_journal_format && has_author_year] in
    let weak_indicators :=
      [Py.contains "epub" (Py.lower text); Py.contains "pmcid:" (Py.lower text)] in
    (1 <=? py_sum strong_indicators)%nat || (2 <=? py_sum weak_indicators)%nat.

(** The group [(\d+)]: the digit run, handed back as the result. *)
Definition digit_group : string -> option string :=
  Re.rep Py.isdecimal 1 None (fun m _ => Some m).

(** [PMID:\s*(\d+)] under [re.IGNORECASE] *)
Definition pmid_group_pattern : string -> option string :=
  Re.lit_ci "PMID:" (Re.star Py.isspace digit_group).

(** The identifier extraction of [addCitation] (lines 101-102):
    [re.search(r'PMID:\s*(\d+)', text, re.IGNORECASE)], then [group(1)] or
    [None]. It reads the text as given, not the trimmed text. *)
Definition extractIdentifier (text : string) : option string :=
  Re.search pmid_group_pattern text.

(** ** The decoded JSON documents of [json.load] and [json.dump] *)

#[warnings="-register-all"]
Inductive json : Type :=
  | JNull
  | JBool (b : bool)
  | JNumber (n : Z)
  | JString (s : string)
  | JArray (items : list json)
  | JObject (members : list (string * json)).

(** A file under the home directory: its content decodes to a JSON
    document, or opening or decoding it raises. *)
Inductive file : Type :=
  | Unreadable
  | Document (data : json).

(** [d[key]] and [d.get(key)] on the members of a decoded object. *)
Fixpoint member (key : string) (members : list (string * json)) : option json :=
  match members with
  | [] => None
  | (k, v) :: rest => if String.eqb k key then Some v else member key rest
  end.

(** The exceptions the loader can meet. *)
Inductive exn : Type :=
  | KeyError (key : string)
  | TypeError
  | ValueError.

(** The value [addCitation] returns: a [bool] or a [str]. *)
Inductive pyvalue : Type :=
  | PyBool (b : bool)
  | PyStr (s : string).

(** The text-generation service, as a function of the user message of a
    request (the system message is a constant): the content of the first
    choice of the answer, or [None] when the request, or reading its
    answer, raises. *)
Definition service := string -> option string.

Definition nl : string := String Py.newline EmptyString.

(** The separator between two notes of one citation: a line of three
    hyphens. *)
Definition note_separator : string := nl ++ "---" ++ nl.

(** The name of the file of a library, under [Path.home()]. *)
Definition library_file (library_name : string) : string :=
  ".pubmed_citations_" ++ library_name ++ ".json".

(** ** [ai.py]: [OpenAIHelper.generateCitationSummaries] *)

Definition numbered (i : nat) : string := Py.str_of_nat (i + 1) ++ ".".

(** The user message: the instruction, then one numbered line per citation,
    each cut to its first 200 characters. *)
Definition batched_prompt (citations : list string) : string :=
  "Summarize each citation, be sure to maximize the distinguishability.:"
  ++ nl ++ nl
  ++ Py.join nl
       (imap (fun i citation => numbered i ++ " " ++ Py.take 200 citation)
             citations).

(** The loop over [enumerate(lines)]. *)
Fixpoint parse_lines (citations : list string) (i : nat) (lines : list string)
    (summaries : gmap string string) : gmap string string :=
  match lines with
  | [] => summaries
  | line :: rest =>
      let summaries' :=
        match citations !! i with
        | Some citation =>
            if Py.is_empty (Py.strip line) then summaries
            else
              let clean_line := Py.strip line in
              let clean_line :=
                if Py.startswith (numbered i) clean_line
                then Py.strip (Py.drop (String.length (numbered i)) clean_line)
                else clean_line in
              <[citation := clean_line]> summaries
        | None => summaries
        end in
      parse_lines citations (S i) rest summaries'
  end.

Definition generateCitationSummaries (enabled : bool) (api : service)
    (citations : list string) : gmap string string :=
  if negb enabled || bool_decide (citations = []) then ∅
  else
    match api (batched_prompt citations) with
    | None => ∅
    | Some content =>
        parse_lines citations 0 (Py.split_lines (Py.strip content)) ∅
    end.

(** ** [citation.py]: the [Citation] dataclass and [CitationManager] *)

Section Manager.

(** [datetime.datetime], [datetime.isoformat] and
    [datetime.fromisoformat] ([None]: it raises [ValueError]). *)
Context {datetime : Type}.
Variable isoformat : datetime -> string.
Variable fromisoformat : string -> option datetime.

Record Citation : Type := mkCitation {
  text : string;
  timestamp : datetime;
  pmid : option string;
  notes : string;
  summary : string;
}.

(** The manager object, together with the files under [Path.home()] that
    it reads and writes: [home] holds them by name, and [writable] tells
    for which names [open(..., 'w')] succeeds. [openai_enabled] is
    [self.openai_helper.enabled]. *)
Record CitationManager : Type := mkManager {
  library_name : string;
  citations : list Citation;
  data_file : string;
  openai_enabled : bool;
  home : gmap string file;
  writable : string -> bool;
}.

Definition with_citations (cs : list Citation) (self : CitationManager)
  : CitationManager :=
  mkManager (library_name self) cs (data_file self) (openai_enabled self)
            (home self) (writable self).

Definition with_library (name : string) (self : CitationManager)
  : CitationManager :=
  mkManager name (citations self) (library_file name) (openai_enabled self)
            (home self) (writable self).

Definition with_home (files : gmap string file) (self : CitationManager)
  : CitationManager :=
  mkManager (library_name self) (citations self) (data_file self)
            (openai_enabled self) files (writable self).

Definition with_notes (n : string) (c : Citation) : Citation :=
  mkCitation (text c) (timestamp c) (pmid c) n (summary c).

Definition with_summary (s : string) (c : Citation) : Citation :=
  mkCitation (text c) (timestamp c) (pmid c) (notes c) s.

(** *** [saveCitations] *)

Definition citation_to_json (citation : Citation) : json :=
  JObject
    [ ("text", JString (text citation));
      ("timestamp", JString (isoformat (timestamp citation)));
      ("pmid", match pmid citation with
               | Some p => JString p
               | None => JNull
               end);
      ("notes", JString (notes citation));
      ("summary", JString (summary citation)) ].

Definition dump (cs : list Citation) : json :=
  JArray (citation_to_json <$> cs).

(** [saveCitations]: the file is rewritten whole; when it cannot be opened
    for writing the [except] clause reports the error and nothing changes.
    A write that fails half-way is not modelled. *)
Definition saveCitations (self : CitationManager) : CitationManager :=
  if writable self (data_file self) then
    with_home (<[data_file self := Document (dump (citations self))]> (home self))
              self
  else self.

(** *** [loadCitations] *)

(** What building one [Citation] from one element of the document does:
    it yields the record, it raises, or it stores a value of another type
    than the dataclass declares ([Unchecked]: Python keeps such a value
    as it is, and the record is then outside this typed model). *)
Inductive built : Type :=
  | Built (citation : Citation)
  | Raised (e : exn)
  | Unchecked.

(** [item.get(key)] for an optional field declared [str]. *)
Definition optional_str (key : string) (default : string)
    (members : list (string * json)) : option string :=
  match member key members with
  | None => Some default
  | Some (JString s) => Some s
  | Some _ => None
  end.

(** [Citation(text=item['text'],
             timestamp=datetime.fromisoformat(item['timestamp']),
             pmid=item.get('pmid'), notes=item.get('notes', ''),
             summary=item.get('summary', ''))],
    the arguments evaluated from left to right. *)
Definition citation_of_item (item : json) : built :=
  match item with
  | JObject members =>
      match member "text" members with
      | None => Raised (KeyError "text")
      | Some text_value =>
          match member "timestamp" members with
          | None => Raised (KeyError "timestamp")
          | Some (JString stamp) =>
              match fromisoformat stamp with
              | None => Raised ValueError
              | Some t =>
                  let pmid_value :=
                    match member "pmid" members with
                    | None | Some JNull => Some None
                    | Some (JString p) => Some (Some p)
                    | Some _ => None
                    end in
                  match text_value, pmid_value,
                        optional_str "notes" "" members,
                        optional_str "summary" "" members with
                  | JString tx, Some p, Some n, Some s =>
                      Built (mkCitation tx t p n s)
                  | _, _, _, _ => Unchecked
                  end
              end
          | Some _ => Raised TypeError
          end
      end
  | _ => Raised TypeError
  end.

(** [for item in data]: the elements of a list, the keys of an object,
    the characters of a string; anything else is not iterable. *)
Definition iterate (data : json) : exn + list json :=
  match data with
  | JArray items => inr items
  | JObject members => inr ((fun kv => JString (fst kv)) <$> members)
  | JString s =>
      inr ((fun c => JString (String c EmptyString)) <$> list_ascii_of_string s)
  | _ => inl TypeError
  end.

(** How the [try] block of [loadCitations] ends. *)
Inductive loaded : Type :=
  | Completed (cs : list Citation)
  | Failed (e : exn)
  | OutsideModel.

(** The first exception among the remaining elements, if any. *)
Fixpoint first_raise (items : list json) : option exn :=
  match items with
  | [] => None
  | item :: rest =>
      match citation_of_item item with
      | Raised e => Some e
      | _ => first_raise rest
      end
  end.

(** The loop [for item in data: ... self.citations.append(citation)]. *)
Fixpoint load_items (items : list json) (acc : list Citation) : loaded :=
  match items with
  | [] => Completed acc
  | item :: rest =>
      match citation_of_item item with
      | Built citation => load_items rest (acc ++ [citation])
      | Raised e => Failed e
      | Unchecked =>
          match first_raise rest with
          | Some e => Failed e
          | None => OutsideModel
          end
      end
  end.

Definition load_document (data : json) (acc : list Citation) : loaded :=
  match iterate data with
  | inl e => Failed e
  | inr items => load_items items acc
  end.

(** [loadCitations]. Both [except] clauses set [self.citations = []].
    The result is [None] only when the document stores a value that the
    typed record cannot hold ([OutsideModel]). *)
Definition loadCitations (self : CitationManager) : option CitationManager :=
  match home self !! data_file self with
  | None => Some self
  | Some Unreadable => Some (with_citations [] self)
  | Some (Document data) =>
      match load_document data (citations self) with
      | Completed cs => Some (with_citations cs self)
      | Failed _ => Some (with_citations [] self)
      | OutsideModel => None
      end
  end.

(** *** [__init__] and [switchLibrary] *)

Definition init (library_name : string) (enabled : bool)
    (files : gmap string file) (can_write : string -> bool)
  : option CitationManager :=
  loadCitations
    (mkManager library_name [] (library_file library_name) enabled files
               can_write).

Definition switchLibrary (library_name : string) (self : CitationManager)
  : option CitationManager :=
  let self := saveCitations self in
  let self := with_library library_name self in
  let self := with_citations [] self in
  loadCitations self.

(** *** [updateSummaries] *)

Definition apply_summaries (summaries : gmap string string)
    (citation : Citation) : Citation :=
  match summaries !! text citation with
  | Some s => with_summary s citation
  | None => citation
  end.

Definition updateSummaries (api : service) (self : CitationManager)
  : CitationManager :=
  if negb (openai_enabled self) then self
  else
    let citations_needing_summary := text <$> citations self in
    if bool_decide (citations_needing_summary = []) then self
    else
      let summaries :=
        generateCitationSummaries (openai_enabled self) api
                                  citations_needing_summary in
      saveCitations
        (with_citations (apply_summaries summaries <$> citations self) self).

(** *** [addCitation] *)

(** The position of the first record whose text is the trimmed text. *)
Definition find_existing (stripped : string) (cs : list Citation)
  : option (nat * Citation) :=
  list_find (fun citation => text citation = stripped) cs.

Definition append_note (note : string) (existing : Citation) : Citation :=
  if Py.is_empty (notes existing)
  then with_notes (Py.strip note) existing
  else with_notes (notes existing ++ note_separator ++ Py.strip note) existing.

(** [now] is the value of [datetime.now()] at the call, [api] the
    behaviour of the service during it. *)
Definition addCitation (now : datetime) (api : service)
    (text_ notes_ : string) (self : CitationManager)
  : CitationManager * pyvalue :=
  if negb (isPubmedCitation text_) then (self, PyBool false)
  else
    let pmid_ := extractIdentifier text_ in
    match find_existing (Py.strip text_) (citations self) with
    | Some (i, existing_citation) =>
        if negb (Py.is_empty (Py.strip notes_)) then
          let cs := <[i := append_note notes_ existing_citation]> (citations self) in
          (saveCitations (with_citations cs self), PyStr "note_appended")
        else (self, PyBool false)
    | None =>
        let citation := mkCitation (Py.strip text_) now pmid_ notes_ "" in
        let self := with_citations (citations self ++ [citation]) self in
        let self := saveCitations self in
        let self := updateSummaries api self in
        (self, PyBool true)
    end.

(** *** [removeCitation] and [clearAll] *)

Definition removeCitation (index : Z) (self : CitationManager)
  : CitationManager :=
  if (0 <=? index)%Z && (index <? Z.of_nat (length (citations self)))%Z then
    saveCitations
      (with_citations (delete (Z.to_nat index) (citations self)) self)
  else self.

Definition clearAll (self : CitationManager) : CitationManager :=
  saveCitations (with_citations [] self).

(** *** [citationCollector.py]: creating a library *)

(** [re.sub(r'[^\w\-_]', '_', name)] *)
Definition safe_char (c : ascii) : bool :=
  Py.isword c || Ascii.eqb c "-" || Ascii.eqb c "_".

Fixpoint sanitize (name : string) : string :=
  match name with
  | EmptyString => EmptyString
  | String c rest =>
      String (if safe_char c then c else "_"%char) (sanitize rest)
  end.

(** [CitationWindow.switchToLibrary], without the widgets. *)
Definition switchToLibrary (library_name_ : string) (self : CitationManager)
  : option CitationManager :=
  if String.eqb library_name_ (library_name self) then Some self
  else switchLibrary library_name_ self.

(** [CitationWindow.createNewLibrary]: [ok] and [name] are what the input
    dialog returns. *)
Definition createNewLibrary (ok : bool) (name : string)
    (self : CitationManager) : option CitationManager :=
  if ok && negb (Py.is_empty (Py.strip name)) then
    let clean_name := sanitize (Py.strip name) in
    switchToLibrary clean_name self
  else Some self.

End Manager.

Arguments Citation : clear implicits.
Arguments CitationManager : clear implicits.
Arguments built : clear implicits.
Arguments loaded : clear implicits.

(** ** A concrete [datetime]: timestamps without UTC offset

    The values [datetime.now()] returns, with the ranges the [datetime]
    constructor enforces, [isoformat()] as documented, and
    [fromisoformat] for the grammar
    [YYYY-MM-DD[*HH[:MM[:SS[.fff[fff]]]]]] of Python 3.7 to 3.10
    (an offset suffix would give an aware value and is not read here). *)

Module NaiveDatetime.

Record fields : Type := mkFields {
  year : Z; month : Z; day : Z;
  hour : Z; minute : Z; second : Z; microsecond : Z;
}.

Definition is_leap (y : Z) : bool :=
  ((y mod 4 =? 0) && negb (y mod 100 =? 0) || (y mod 400 =? 0))%Z.

Definition days_in_month (y m : Z) : Z :=
  match m with
  | 1 | 3 | 5 | 7 | 8 | 10 | 12 => 31
  | 4 | 6 | 9 | 11 => 30
  | 2 => if is_leap y then 29 else 28
  | _ => 0
  end%Z.

Definition valid (d : fields) : bool :=
  ((1 <=? year d) && (year d <=? 9999)
   && (1 <=? month d) && (month d <=? 12)
   && (1 <=? day d) && (day d <=? days_in_month (year d) (month d))
   && (0 <=? hour d) && (hour d <? 24)
   && (0 <=? minute d) && (minute d <? 60)
   && (0 <=? second d) && (second d <? 60)
   && (0 <=? microsecond d) && (microsecond d <? 1000000))%Z.

(** A [datetime] object always satisfies the ranges. *)
Definition datetime : Type := { d : fields | Is_true (valid d) }.

Definition digit (x : Z) : ascii := ascii_of_nat (48 + Z.to_nat x).

Definition digit_value (c : ascii) : Z := Z.of_nat (Py.code c) - 48.

(** [n] in decimal on [k] digits, zero padded. *)
Fixpoint pad (k : nat) (n : Z) : string :=
  match k with
  | O => EmptyString
  | S k' => pad k' (n / 10) ++ String (digit (n mod 10)) EmptyString
  end.

Definition isoformat_fields (d : fields) : string :=
  pad 4 (year d) ++ "-" ++ pad 2 (month d) ++ "-" ++ pad 2 (day d) ++ "T"
  ++ pad 2 (hour d) ++ ":" ++ pad 2 (minute d) ++ ":" ++ pad 2 (second d)
  ++ (if (microsecond d =? 0)%Z then EmptyString
      else "." ++ pad 6 (microsecond d)).

Definition isoformat (d : datetime) : string := isoformat_fields (proj1_sig d).

(** Exactly [k] ASCII digits. *)
Fixpoint digits (k : nat) (acc : Z) (s : string) : option (Z * string) :=
  match k with
  | O => Some (acc, s)
  | S k' =>
      match s with
      | String c s' =>
          if Py.isdecimal c then digits k' (10 * acc + digit_value c) s'
          else None
      | EmptyString => None
      end
  end.

Definition expect (c : ascii) (s : string) : option string :=
  match s with
  | String c' s' => if Ascii.eqb c c' then Some s' else None
  | EmptyString => None
  end.

(** The fraction of a second: three or six digits. *)
Definition parse_fraction (s : string) : option Z :=
  if (String.length s =? 3)%nat then
    (fun r => r.1 * 1000)%Z <$> digits 3 0 s
  else if (String.length s =? 6)%nat then fst <$> digits 6 0 s
  else None.

Local Open Scope Z_scope.

(** [HH[:MM[:SS[.fff[fff]]]]] *)
Definition parse_time (s : string) : option (Z * Z * Z * Z) :=
  '(hh, s) ← digits 2 0 s;
  if Py.is_empty s then Some (hh, 0, 0, 0) else
  s ← expect ":" s;
  '(mm, s) ← digits 2 0 s;
  if Py.is_empty s then Some (hh, mm, 0, 0) else
  s ← expect ":" s;
  '(ss, s) ← digits 2 0 s;
  if Py.is_empty s then Some (hh, mm, ss, 0) else
  s ← expect "." s;
  us ← parse_fraction s;
  Some (hh, mm, ss, us).

Definition parse_fields (s : string) : option fields :=
  '(y, s) ← digits 4 0 s;
  s ← expect "-" s;
  '(m, s) ← digits 2 0 s;
  s ← expect "-" s;
  '(d, s) ← digits 2 0 s;
  match s with
  | EmptyString => Some (mkFields y m d 0 0 0 0)
  | String _ s =>
      '(hh, mm, ss, us) ← parse_time s;
      Some (mkFields y m d hh mm ss us)
  end.

Definition check (d : fields) : option datetime :=
  match Is_true_dec (valid d) with
  | left ok => Some (exist _ d ok)
  | right _ => None
  end.

Definition fromisoformat (s : string) : option datetime :=
  parse_fields s ≫= check.

(** 2024-03-09 14:05:07.000250 *)
Definition sample_fields : fields := mkFields 2024 3 9 14 5 7 250.

Definition sample : datetime := exist _ sample_fields I.

Local Close Scope Z_scope.

End NaiveDatetime.


(** ** Vocabulary of the properties *)

(** Every character of a string satisfies a test. *)
Fixpoint all_chars (p : ascii -> bool) (s : string) : bool :=
  match s with
  | EmptyString => true
  | String c s' => p c && all_chars p s'
  end.

(** The explicit-identifier marker of the specification's example. *)
Definition marker : string := "PMID: 12345".

Definition starts_with_digit (s : string) : bool :=
  match s with
  | String c _ => Py.isdecimal c
  | EmptyString => false
  end.

Section Vocabulary.

Context {datetime : Type}.
Variable isoformat : datetime -> string.
Variable fromisoformat : string -> option datetime.

(** No two records of a library have the same text after trimming. *)
Definition unique_texts (cs : list (Citation datetime)) : Prop :=
  forall i j ci cj,
    cs !! i = Some ci -> cs !! j = Some cj ->
    Py.strip (text ci) = Py.strip (text cj) -> i = j.

(** What the manager maintains: the stored texts are pairwise distinct
    and each is already trimmed. *)
Definition trimmed_and_distinct (cs : list (Citation datetime)) : Prop :=
  NoDup (text <$> cs) /\ Forall (fun t => Py.strip t = t) (text <$> cs).

(** One call of a manager operation that changes the active library. *)
Inductive step : CitationManager datetime -> CitationManager datetime -> Prop :=
  | step_addCitation now api text_ notes_ self :
      step self (addCitation isoformat now api text_ notes_ self).1
  | step_removeCitation index self :
      step self (removeCitation isoformat index self)
  | step_clearAll self :
      step self (clearAll isoformat self)
  | step_updateSummaries api self :
      step self (updateSummaries isoformat api self).

(** The states a manager reaches from an empty library. *)
Inductive reachable : CitationManager datetime -> Prop :=
  | reachable_empty self : citations self = [] -> reachable self
  | reachable_step self self' :
      reachable self -> step self self' -> reachable self'.

(** The structural errors of one element of a persisted document: a
    required field is missing, or the timestamp does not parse. *)
Inductive item_error : json -> Prop :=
  | missing_text members :
      member "text" members = None -> item_error (JObject members)
  | missing_timestamp members :
      member "timestamp" members = None -> item_error (JObject members)
  | malformed_timestamp members stamp :
      member "timestamp" members = Some (JString stamp) ->
      fromisoformat stamp = None ->
      item_error (JObject members).

(** A persisted input with a structural error: it does not decode, or
    one of its elements has an error. *)
Inductive structural_error : file -> Prop :=
  | malformed_encoding : structural_error Unreadable
  | broken_item items item :
      item ∈ items -> item_error item ->
      structural_error (Document (JArray items)).

(** An element that follows the schema of the persisted file: [text] a
    string, [timestamp] a string that parses, [pmid] a string, null or
    absent, [notes] and [summary] strings or absent. *)
Definition str_or_absent (key : string) (members : list (string * json)) : Prop :=
  member key members = None \/ exists s, member key members = Some (JString s).

Definition well_formed_item (item : json) : Prop :=
  exists members tx stamp t,
    item = JObject members
    /\ member "text" members = Some (JString tx)
    /\ member "timestamp" members = Some (JString stamp)
    /\ fromisoformat stamp = Some t
    /\ (member "pmid" members = Some JNull \/ str_or_absent "pmid" members)
    /\ str_or_absent "notes" members
    /\ str_or_absent "summary" members.

End Vocabulary.

(** ** Sample data *)

Module Sample.

Definition zuchero : string :=
  "Zuchero JB, Barres BA. Intrinsic and extrinsic control of oligodendrocyte development. Curr Opin Neurobiol. 2013 Dec;23(6):914-20. PMID: 23831087".

Definition now : NaiveDatetime.datetime := NaiveDatetime.sample.

(** A service that answers with one numbered label. *)
Definition labels : service := fun _ => Some "1. Zuchero: OL development".

(** A manager on the empty default library, with no file on disk. *)
Definition empty_library (enabled : bool)
  : CitationManager NaiveDatetime.datetime :=
  mkManager "default" [] (library_file "default") enabled ∅ (fun _ => true).

Definition record (tx : string) : Citation NaiveDatetime.datetime :=
  mkCitation tx now None "" "".

Definition three_records : CitationManager NaiveDatetime.datetime :=
  mkManager "default" [record "first"; record "second"; record "third"]
            (library_file "default") false ∅ (fun _ => true).

(** [addCitation] at the sample time, with the sample service. *)
Definition add := addCitation NaiveDatetime.isoformat now labels.

(** A file whose only element has no timestamp. *)
Definition no_timestamp : file :=
  Document (JArray [JObject [("text", JString "first")]]).

(** A manager that holds one record while its file is broken. *)
Definition over_broken_file : CitationManager NaiveDatetime.datetime :=
  mkManager "default" [record "first"] (library_file "default") false
            {[ library_file "default" := no_timestamp ]} (fun _ => true).

End Sample.

(** ** More string primitives *)

Module PyMore.

(** [s.endswith(p)] *)
Fixpoint endswith (p s : string) : bool :=
  String.eqb p s
  || match s with
     | EmptyString => false
     | String _ s' => endswith p s'
     end.

(** The text before the last dot of a name, when it has a dot
    ([name[:name.rfind('.')]]). *)
Fixpoint before_last_dot (name : string) : option string :=
  match name with
  | EmptyString => None
  | String c rest =>
      match before_last_dot rest with
      | Some p => Some (String c p)
      | None => if Ascii.eqb c "." then Some EmptyString else None
      end
  end.

(** [PurePath.stem] of a final path component: the name up to its last
    dot, when that dot is neither the first nor the last character. *)
Definition stem (name : string) : string :=
  match before_last_dot name with
  | Some p =>
      if (0 <? String.length p)%nat
         && (String.length p <? String.length name - 1)%nat
      then p else name
  | None => name
  end.

(** [s.replace(old, new)] for a non-empty [old]: the occurrences of [old]
    are replaced from left to right, without overlap. [skip] counts the
    characters of the occurrence just replaced that are still to be
    passed over. *)
Fixpoint replace_from (old new : string) (skip : nat) (s : string) : string :=
  match s with
  | EmptyString => EmptyString
  | String c s' =>
      match skip with
      | S k => replace_from old new k s'
      | O =>
          if Py.startswith old s
          then new ++ replace_from old new (String.length old - 1) s'
          else String c (replace_from old new 0 s')
      end
  end.

(** With an empty [old], [new] goes before every character and at the
    end. *)
Fixpoint around (new s : string) : string :=
  match s with
  | EmptyString => new
  | String c s' => new ++ String c (around new s')
  end.

Definition replace (old new s : string) : string :=
  if Py.is_empty old then around new s else replace_from old new 0 s.

(** The longest prefix whose characters all satisfy a test. *)
Fixpoint take_while (p : ascii -> bool) (s : string) : string :=
  match s with
  | EmptyString => EmptyString
  | String c s' => if p c then String c (take_while p s') else EmptyString
  end.

(** The characters of a text that satisfy a test, in order. *)
Fixpoint keep (p : ascii -> bool) (s : string) : string :=
  match s with
  | EmptyString => EmptyString
  | String c s' => if p c then String c (keep p s') else keep p s'
  end.

(** [c * n] for a character. *)
Fixpoint repeat_char (c : ascii) (n : nat) : string :=
  match n with
  | O => EmptyString
  | S n' => String c (repeat_char c n')
  end.

(** [''.join(parts)] *)
Fixpoint concat (parts : list string) : string :=
  match parts with
  | [] => EmptyString
  | p :: ps => p ++ concat ps
  end.

(** [list.sort(key=..., reverse=...)]: the stable sort, written as an
    insertion sort. [lt] is [<] on the keys; an element is put after the
    elements whose key is smaller and before the others, which keeps the
    elements of equal key in their original order. With [reverse=True] the
    comparison is turned around and the order of equal keys is kept all the
    same. *)
Section Sort.
Context {A K : Type} (key : A -> K) (lt : K -> K -> bool).

Fixpoint insert_sorted (x : A) (l : list A) : list A :=
  match l with
  | [] => [x]
  | y :: l' => if lt (key y) (key x) then y :: insert_sorted x l' else x :: l
  end.

Definition sort_by (l : list A) : list A := foldr insert_sorted [] l.

(** Two neighbours of a sorted list: the second has no smaller key. *)
Definition in_order (x y : A) : Prop := lt (key y) (key x) = false.
End Sort.

Definition sort_by_reversed {A K} (key : A -> K) (lt : K -> K -> bool)
  : list A -> list A :=
  sort_by key (fun a b => lt b a).

End PyMore.

(** ** [citation.py]: [getAvailableLibraries] *)

Definition library_prefix : string := ".pubmed_citations_".
Definition library_suffix : string := ".json".

(** The name of the directory entry of [Path.home()] through which a file
    is reached: the file name up to its first separator. *)
Definition directory_entry (file_name : string) : string :=
  PyMore.take_while (fun c => negb (Ascii.eqb c "/")) file_name.

(** A name matches [.pubmed_citations_*.json]: it starts with the prefix
    and ends with the suffix, the two not overlapping (case-sensitive
    matching, as on POSIX systems). *)
Definition matches_library_pattern (name : string) : bool :=
  Py.startswith library_prefix name
  && PyMore.endswith library_suffix name
  && (String.length library_prefix + String.length library_suffix
      <=? String.length name)%nat.

(** [Path.home().glob(".pubmed_citations_*.json")]: the matching entries
    of the home directory, each once, in some order. *)
Definition glob_libraries (files : gmap string file) : list string :=
  List.filter matches_library_pattern
    (elements (list_to_set (directory_entry <$> elements (dom files))
               : gset string)).

(** [file.stem.replace(".pubmed_citations_", "")] *)
Definition library_of_entry (entry : string) : string :=
  PyMore.replace library_prefix "" (PyMore.stem entry).

(** [getAvailableLibraries], as a function of the files under the home
    directory. [sorted] on strings is the sort by code points. *)
Definition getAvailableLibraries (files : gmap string file) : list string :=
  let libraries := library_of_entry <$> glob_libraries files in
  let libraries :=
    if bool_decide ("default" ∈ libraries) then libraries
    else (libraries ++ ["default"])%list in
  merge_sort String.le libraries.

(** ** [export.py] *)

(** [extractFirstAuthor]: the group of [^([A-Z][a-z]+)] on the trimmed
    text, lowered; without a match, the letters of the first word,
    lowered. *)
Definition author_pattern (s : string) : option string :=
  match s with
  | String c s' =>
      if Py.isupper_ascii c
      then Re.rep Py.islower_ascii 1 None (fun m _ => Some (String c m)) s'
      else None
  | EmptyString => None
  end.

(** [s.split()[0]] for a trimmed, non-empty [s]. *)
Definition first_word (s : string) : string :=
  PyMore.take_while (fun c => negb (Py.isspace c)) s.

Definition extractFirstAuthor (citation_text : string) : string :=
  match author_pattern (Py.strip citation_text) with
  | Some group => Py.lower group
  | None =>
      let first_word :=
        if Py.is_empty (Py.strip citation_text) then EmptyString
        else first_word (Py.strip citation_text) in
      Py.lower (PyMore.keep Py.isalpha_ascii first_word)
  end.

(** The options of [ExportDialog.getOptions]. *)
Record ExportOptions : Type := mkOptions {
  sort_by_time : bool;
  sort_by_author : bool;
  include_index : bool;
  include_notes : bool;
}.

Section ExportText.

(** [earlier] is [<] on timestamps. *)
Context {datetime : Type}.
Variable earlier : datetime -> datetime -> bool.

(** [citations_copy] after the optional sort. *)
Definition export_order (options : ExportOptions)
    (citations : list (Citation datetime)) : list (Citation datetime) :=
  if sort_by_time options then
    PyMore.sort_by_reversed timestamp earlier citations
  else if sort_by_author options then
    PyMore.sort_by (fun c => extractFirstAuthor (text c)) String.ltb citations
  else citations.

(** What is written for the [i]-th citation of the export. *)
Definition export_entry (options : ExportOptions) (i : nat)
    (citation : Citation datetime) : string :=
  let line := text citation in
  let line :=
    if include_notes options && negb (Py.is_empty (notes citation))
    then line ++ " [note: " ++ notes citation ++ "]"
    else line in
  if include_index options then Py.str_of_nat i ++ ". " ++ line ++ nl ++ nl
  else line ++ nl ++ nl.

Definition export_text (options : ExportOptions)
    (citations : list (Citation datetime)) : string :=
  let citations_copy := export_order options citations in
  "Citations Export (" ++ Py.str_of_nat (length citations_copy) ++ " total)"
  ++ nl ++ PyMore.repeat_char "=" 50 ++ nl ++ nl
  ++ PyMore.concat
       (imap (fun i citation => export_entry options (i + 1) citation)
             citations_copy).

(** [exportCitations]: [accepted] and [options] come from the options
    dialog, [file_path] from the file dialog; [can_open] tells whether
    the file opens for writing. The result is the text written, if any. *)
Definition exportCitations (accepted : bool) (options : ExportOptions)
    (file_path : string) (can_open : bool)
    (citations : list (Citation datetime)) : option string :=
  match citations with
  | [] => None
  | _ =>
      if negb accepted then None
      else if Py.is_empty file_path then None
      else if can_open then Some (export_text options citations)
      else None
  end.

End ExportText.

(** ** [listener.py]: [ClipboardListener] *)

Module Listener.

Record ClipboardListener : Type := mkListener {
  last_text : string;
  is_monitoring : bool;
}.

(** [start]; [clipboard_text] is [self.clipboard.text()] at the call. The
    slot is connected exactly while [is_monitoring] holds. *)
Definition start (clipboard_text : string) (self : ClipboardListener)
  : ClipboardListener :=
  if is_monitoring self then self else mkListener clipboard_text true.

Definition stop (self : ClipboardListener) : ClipboardListener :=
  if is_monitoring self then mkListener (last_text self) false else self.

(** [onClipboardChanged]: the new state and the text emitted through
    [newTextDetected], if any. *)
Definition onClipboardChanged (current_text : string) (self : ClipboardListener)
  : ClipboardListener * option string :=
  if negb (Py.is_empty current_text)
     && negb (String.eqb current_text (last_text self))
  then (mkListener current_text (is_monitoring self), Some current_text)
  else (self, None).

(** What happens around the listener. *)
Inductive event : Type :=
  | Start (clipboard_text : string)
  | Stop
  | DataChanged (clipboard_text : string).

(** The texts emitted over a sequence of events; [dataChanged] reaches the
    slot only while it is connected. *)
Fixpoint run (events : list event) (self : ClipboardListener)
  : ClipboardListener * list string :=
  match events with
  | [] => (self, [])
  | Start t :: rest => run rest (start t self)
  | Stop :: rest => run rest (stop self)
  | DataChanged t :: rest =>
      if is_monitoring self then
        let '(self', emitted) := onClipboardChanged t self in
        let '(final, later) := run rest self' in
        (final, match emitted with Some e => e :: later | None => later end)
      else run rest self
  end.

(** No text of the list repeats the text just before it; [previous] is
    the text before the first. *)
Fixpoint no_repeat (previous : string) (texts : list string) : Prop :=
  match texts with
  | [] => True
  | t :: rest => t <> previous /\ no_repeat t rest
  end.

End Listener.

(** ** [ai.py]: [loadApiKey] and [OpenAIHelper.__init__] *)

(** The truth value of a decoded JSON value in a condition. *)
Definition truthy (v : json) : bool :=
  match v with
  | JNull => false
  | JBool b => b
  | JNumber n => negb (n =? 0)%Z
  | JString s => negb (Py.is_empty s)
  | JArray items => negb (bool_decide (items = []))
  | JObject members => negb (bool_decide (members = []))
  end.

(** [loadApiKey]: [json.loads(config_path.read_text())["api_key"]], or
    the empty string when anything raises. [config] is the configuration
    file, if there is one. *)
Definition loadApiKey (config : option file) : json :=
  match config with
  | Some (Document (JObject members)) =>
      match member "api_key" members with
      | Some key => key
      | None => JString ""
      end
  | _ => JString ""
  end.

(** [OpenAIHelper.__init__]: the value of [self.enabled]. [client_ok]
    tells whether the construction of the client succeeds for a key. *)
Definition helper_enabled (client_ok : json -> bool) (config : option file)
  : bool :=
  let api_key := loadApiKey config in
  if truthy api_key then client_ok api_key else false.

(** ** [citationCollector.py]: the callers of the manager *)

(** The status the window shows after a clipboard text. *)
Inductive status : Type :=
  | CitationSaved (with_note : bool)
  | NoteAppendedToExisting
  | CitationAlreadyExists
  | NoStatus.

Section Window.

Context {datetime : Type}.
Variable isoformat : datetime -> string.

(** [CitationWindow.onNewClipboardText]: [dialog_accepted] and
    [dialog_notes] are the result of the note dialog, which is shown only
    for a text the classifier accepts. *)
Definition onNewClipboardText (now : datetime) (api : service)
    (dialog_accepted : bool) (dialog_notes : string) (text_ : string)
    (self : CitationManager datetime) : CitationManager datetime * status :=
  if isPubmedCitation text_ then
    if dialog_accepted then
      let '(self', add_result) :=
        addCitation isoformat now api text_ dialog_notes self in
      match add_result with
      | PyBool true =>
          (self', CitationSaved (negb (Py.is_empty dialog_notes)))
      | PyStr "note_appended" => (self', NoteAppendedToExisting)
      | _ => (self', CitationAlreadyExists)
      end
    else (self, NoStatus)
  else (self, NoStatus).

(** [CitationWindow.removeCitation]: [items] holds, row by row, the index
    each list item carries; [current_row] is the selected row, or -1. The
    result is [None] when the row has no item (the call raises). *)
Definition window_removeCitation (current_row : Z) (items : list Z)
    (self : CitationManager datetime)
  : option (list Z * CitationManager datetime) :=
  if (0 <=? current_row)%Z then
    match items !! Z.to_nat current_row with
    | Some index =>
        let self' := removeCitation isoformat index self in
        let items' := delete (Z.to_nat current_row) items in
        Some ((fun old_index =>
                 if (index <? old_index)%Z then (old_index - 1)%Z
                 else old_index) <$> items',
              self')
    | None => None
    end
  else Some (items, self).

(** The list shows the stored records in order: row [i] carries index
    [i]. *)
Definition aligned (items : list Z) (self : CitationManager datetime) : Prop :=
  items = Z.of_nat <$> seq 0 (length (citations self)).

(** The file of the active library holds what is in memory. *)
Definition in_sync (self : CitationManager datetime) : Prop :=
  home self !! data_file self = Some (Document (dump isoformat (citations self))).

(** A record after an operation, compared with the record before it: the
    same text, time and identifier, and notes that start with the old
    notes. *)
Definition extends (old new : Citation datetime) : Prop :=
  text new = text old /\ timestamp new = timestamp old /\ pmid new = pmid old
  /\ exists more, notes new = notes old ++ more.

(** An operation stayed within the active library: the manager is on the
    same library as before and every other file is as it was. *)
Definition same_library (self self' : CitationManager datetime) : Prop :=
  library_name self' = library_name self
  /\ data_file self' = data_file self
  /\ openai_enabled self' = openai_enabled self
  /\ writable self' = writable self
  /\ forall file_name,
       file_name <> data_file self ->
       home self' !! file_name = home self !! file_name.

End Window.

(** ** More sample data *)

Module MoreSample.

(** Timestamps compared by their text, which orders them by time. *)
Definition earlier (t u : NaiveDatetime.datetime) : bool :=
  String.ltb (NaiveDatetime.isoformat t) (NaiveDatetime.isoformat u).

(** A service that never answers. *)
Definition offline : service := fun _ => None.

(** A service that answers with two numbered lines. *)
Definition two_labels : service :=
  fun _ => Some ("1. Doe: trial" ++ nl ++ "2. Roe: review").

Definition noted (tx note : string) : Citation NaiveDatetime.datetime :=
  mkCitation tx Sample.now None note "".

Definition authors : list (Citation NaiveDatetime.datetime) :=
  [noted "Zed A. Last." ""; noted "Abe B. First." "n"; noted "Abe C. Second." ""].

Definition by_author : ExportOptions := mkOptions false true true true.
Definition by_time : ExportOptions := mkOptions true false true true.
Definition as_stored : ExportOptions := mkOptions false false true true.

Definition one_library : gmap string file :=
  {[ library_file "my_lib" := Unreadable ]}.

Definition monitoring : Listener.ClipboardListener :=
  Listener.mkListener "a" true.

(** Two records in a library whose provider is enabled. *)
Definition with_provider : CitationManager NaiveDatetime.datetime :=
  mkManager "default" [Sample.record "first"; Sample.record "second"]
            (library_file "default") true ∅ (fun _ => true).

(** The state after a switch from the three sample records to a library
    ["other"] that has no file. *)
Definition switched_away : CitationManager NaiveDatetime.datetime :=
  with_citations []
    (with_library "other"
       (saveCitations NaiveDatetime.isoformat Sample.three_records)).

End MoreSample.

(** * Properties *)

(** ** Strings *)

Module PyFacts.
Import Py.

Lemma append_assoc (s t u : string) : (s ++ t) ++ u = s ++ (t ++ u).
Proof. induction s as [|a s IH]; simpl; [reflexivity | now rewrite IH]. Qed.

Lemma rstrip_idempotent s : rstrip (rstrip s) = rstrip s.
Proof.
  induction s as [|c s IH]; [reflexivity|].
  simpl. destruct (is_empty (rstrip s) && isspace c) eqn:E; [reflexivity|].
  simpl. rewrite IH, E. reflexivity.
Qed.

(** A left-trimmed text is empty or starts with a non-space character. *)
Lemma lstrip_head s :
  lstrip s = EmptyString
  \/ exists c t, lstrip s = String c t /\ isspace c = false.
Proof.
  induction s as [|c s IH]; [left; reflexivity|].
  simpl. destruct (isspace c) eqn:E; [exact IH|].
  right. exists c, s. split; [reflexivity | exact E].
Qed.

Lemma lstrip_fixed c t : isspace c = false -> lstrip (String c t) = String c t.
Proof. intros E. simpl. rewrite E. reflexivity. Qed.

Lemma rstrip_nonspace_head c t :
  isspace c = false -> rstrip (String c t) = String c (rstrip t).
Proof. intros E. simpl. rewrite E, andb_false_r. reflexivity. Qed.

Lemma strip_idempotent s : strip (strip s) = strip s.
Proof.
  unfold strip. destruct (lstrip_head s) as [E | (c & t & E & Hc)]; rewrite E.
  - reflexivity.
  - rewrite (rstrip_nonspace_head _ _ Hc), (lstrip_fixed _ _ Hc).
    rewrite <- (rstrip_nonspace_head _ _ Hc). apply rstrip_idempotent.
Qed.

Lemma rstrip_app_nonspace s c t :
  isspace c = false -> rstrip (s ++ String c t) = s ++ String c (rstrip t).
Proof.
  intros Hc. induction s as [|a s IH]; simpl.
  - rewrite Hc, andb_false_r. reflexivity.
  - rewrite IH. destruct s; reflexivity.
Qed.

Lemma lstrip_app_nonspace s c t :
  isspace c = false -> exists s', lstrip (s ++ String c t) = s' ++ String c t.
Proof.
  intros Hc. induction s as [|a s IH]; simpl.
  - rewrite Hc. exists EmptyString. reflexivity.
  - destruct (isspace a); [exact IH|]. exists (String a s). reflexivity.
Qed.

(** Trimming keeps an occurrence that starts and ends with non-space
    characters. *)
Lemma strip_keeps_occurrence pre a mid b post :
  isspace a = false -> isspace b = false ->
  exists pre' post',
    strip (pre ++ String a (mid ++ String b post))
    = pre' ++ String a (mid ++ String b post').
Proof.
  intros Ha Hb. unfold strip.
  destruct (lstrip_app_nonspace pre a (mid ++ String b post) Ha) as [pre' E].
  rewrite E. exists pre', (rstrip post).
  change (pre' ++ String a (mid ++ String b post))
    with (pre' ++ (String a mid) ++ String b post).
  rewrite <- append_assoc, rstrip_app_nonspace by exact Hb.
  rewrite append_assoc. reflexivity.
Qed.

Lemma startswith_inv p s :
  startswith p s = true -> exists post, s = p ++ post.
Proof.
  revert s. induction p as [|a p IH]; intros s; simpl.
  - intros _. exists s. reflexivity.
  - destruct s as [|b s]; [discriminate|].
    intros [Hab Hrest]%andb_prop. apply Ascii.eqb_eq in Hab. subst b.
    destruct (IH s Hrest) as [post ->]. exists post. reflexivity.
Qed.

(** [p in s] holds only if [s] is some text, then [p], then some text. *)
Lemma contains_inv p s :
  contains p s = true -> exists pre post, s = pre ++ p ++ post.
Proof.
  induction s as [|a s IH]; simpl; intros H.
  - rewrite orb_false_r in H. destruct (startswith_inv _ _ H) as [post E].
    exists EmptyString, post. exact E.
  - apply orb_prop in H as [H | H].
    + destruct (startswith_inv _ _ H) as [post E].
      exists EmptyString, post. exact E.
    + destruct (IH H) as (pre & post & ->).
      exists (String a pre), post. reflexivity.
Qed.

Lemma is_empty_false s : is_empty s = false <-> s <> EmptyString.
Proof. destruct s; simpl; split; congruence. Qed.

End PyFacts.

(** ** Regular expressions *)

Module ReFacts.
Import Re.

Lemma search_found {R} (m : string -> option R) pre s :
  is_Some (m s) -> is_Some (search m (pre ++ s)).
Proof.
  intros Hm. induction pre as [|a pre IH]; simpl.
  - destruct s; simpl; destruct Hm as [r ->]; eauto.
  - destruct (m (String a (pre ++ s))); [eauto | exact IH].
Qed.

(** A repetition that may stop at once succeeds when its continuation
    always does. *)
Lemma rep_zero_total {R} cls hi (k : string -> string -> option R) s :
  (forall m t, is_Some (k m t)) -> is_Some (rep cls 0 hi k s).
Proof.
  revert hi k. induction s as [|c s IH]; intros hi k Hk; simpl; [apply Hk|].
  destruct (cls c && may_take hi); [|apply Hk].
  destruct (IH (Nat.pred <$> hi) (fun m => k (String c m))) as [r ->];
    [intros; apply Hk | eauto].
Qed.

(** At an occurrence of the marker the identifier pattern matches. *)
Lemma pmid_pattern_at_marker post : pmid_pattern (marker ++ post) = Some tt.
Proof.
  unfold pmid_pattern, marker, star, plus. simpl.
  destruct (rep_zero_total Py.isdecimal None (fun _ : string => accept) post)
    as [[] E]; [intros; unfold accept; eauto|].
  simpl in E. rewrite E. reflexivity.
Qed.

(** The capturing pattern at the marker: the group is the whole digit
    run, which ends where the next character is not a digit. *)
Lemma pmid_group_at_marker post :
  starts_with_digit post = false ->
  pmid_group_pattern (marker ++ post) = Some "12345".
Proof.
  intros Hpost. unfold pmid_group_pattern, digit_group, marker, star. simpl.
  destruct post as [|c post]; simpl; [reflexivity|].
  simpl in Hpost. rewrite Hpost. reflexivity.
Qed.

Lemma pmid_group_at_marker_some post :
  is_Some (pmid_group_pattern (marker ++ post)).
Proof.
  unfold pmid_group_pattern, digit_group, marker, star. simpl.
  destruct (rep Py.isdecimal 0 None _ post); simpl; eauto.
Qed.

Lemma digit_group_extend s u :
  s <> EmptyString -> digit_group s = None -> digit_group (s ++ u) = None.
Proof.
  unfold digit_group. destruct s as [|c s]; [congruence|]. intros _. simpl.
  destruct (Py.isdecimal c); simpl; [|reflexivity].
  destruct (rep_zero_total Py.isdecimal None
              (fun m (_ : string) => Some (String c m)) s) as [r ->];
    [eauto | discriminate].
Qed.

(** [\s*(\d+)]: a failure inside a text is not repaired by appending a
    text that starts with neither a space nor a digit. *)
Lemma space_digits_extend s a u :
  Py.isspace a = false -> Py.isdecimal a = false ->
  star Py.isspace digit_group s = None ->
  star Py.isspace digit_group (s ++ String a u) = None.
Proof.
  intros Ha Hd. unfold star. induction s as [|c s IH]; simpl.
  - intros _. rewrite Ha. simpl. unfold digit_group. simpl.
    rewrite Hd. reflexivity.
  - destruct (Py.isspace c) eqn:Hc; simpl.
    + destruct (rep Py.isspace 0 None (fun _ : string => digit_group) s);
        [discriminate|].
      intros H. rewrite IH by reflexivity.
      apply (digit_group_extend (String c s)); [discriminate | exact H].
    + apply (digit_group_extend (String c s)). discriminate.
Qed.

Ltac literal_step :=
  match goal with
  | |- context [if ?b then _ else _] => destruct b; [|intros; reflexivity]
  end.

(** A failed match attempt inside the prefix stays failed when an
    occurrence of the marker follows the prefix. *)
Lemma pmid_group_extend c s t :
  pmid_group_pattern (String c s) = None ->
  pmid_group_pattern (String c s ++ marker ++ t) = None.
Proof.
  change (marker ++ t) with (String "P" ("MID: 12345" ++ t)).
  generalize ("MID: 12345" ++ t). intros u.
  change pmid_group_pattern
    with (lit_ci "PMID:" (star Py.isspace digit_group)).
  pose proof (fun v => space_digits_extend v "P" u eq_refl eq_refl) as Hext.
  revert Hext. generalize (star Py.isspace digit_group). intros k Hext.
  cbn [lit_ci String.append]. literal_step.
  destruct s as [|c1 s]; [reflexivity|]. cbn [lit_ci String.append]. literal_step.
  destruct s as [|c2 s]; [reflexivity|]. cbn [lit_ci String.append]. literal_step.
  destruct s as [|c3 s]; [reflexivity|]. cbn [lit_ci String.append]. literal_step.
  destruct s as [|c4 s]; [reflexivity|]. cbn [lit_ci String.append]. literal_step.
  apply Hext.
Qed.

(** [re.search] returns the match at the first occurrence of the marker
    when no attempt succeeds inside the text before it. *)
Lemma search_group_leftmost pre post :
  search pmid_group_pattern pre = None ->
  search pmid_group_pattern (pre ++ marker ++ post)
  = pmid_group_pattern (marker ++ post).
Proof.
  induction pre as [|c pre IH]; intros Hpre.
  - destruct (pmid_group_at_marker_some post) as [r E].
    change (EmptyString ++ marker ++ post)
      with (String "P" ("MID: 12345" ++ post)).
    change (marker ++ post) with (String "P" ("MID: 12345" ++ post)) in *.
    cbn [search]. rewrite E. reflexivity.
  - simpl in Hpre.
    destruct (pmid_group_pattern (String c pre)) eqn:E; [discriminate|].
    change (String c pre ++ marker ++ post)
      with (String c (pre ++ marker ++ post)).
    cbn [search].
    change (String c (pre ++ marker ++ post))
      with (String c pre ++ marker ++ post) at 1.
    rewrite (pmid_group_extend c pre post E). apply IH, Hpre.
Qed.

End ReFacts.

(** ** The classifier and the identifier *)

Section Classifier.
Import Py PyFacts Re ReFacts.

Lemma marker_found_after_strip pre post :
  found (search pmid_pattern (strip (pre ++ marker ++ post))) = true.
Proof.
  destruct (strip_keeps_occurrence pre "P" "MID: 1234" "5" post eq_refl eq_refl)
    as (pre' & post' & E).
  change (pre ++ marker ++ post)
    with (pre ++ String "P" ("MID: 1234" ++ String "5" post)).
  rewrite E.
  change (pre' ++ String "P" ("MID: 1234" ++ String "5" post'))
    with (pre' ++ marker ++ post').
  destruct (search_found pmid_pattern pre' (marker ++ post')) as [r ->];
    [rewrite pmid_pattern_at_marker; eauto | reflexivity].
Qed.

(** C4, as stated, fails: a text that contains [PMID: 12345] is rejected
    when it is shorter than 20 characters or contains a code-like
    fragment, and the extracted identifier is the whole digit run of the
    first marker of the text, which can be another one than [12345]. *)
Lemma marker_text_rejected_or_other_identifier :
  (contains marker "PMID: 12345" = true
   /\ isPubmedCitation "PMID: 12345" = false)
  /\ (contains marker "print(record)  # see PMID: 12345" = true
      /\ isPubmedCitation "print(record)  # see PMID: 12345" = false)
  /\ (contains marker "Doe J. A trial. 2020. PMID: 123456." = true
      /\ extractIdentifier "Doe J. A trial. 2020. PMID: 123456."
         = Some "123456")
  /\ (contains marker "Cited by pmid: 777; this is PMID: 12345." = true
      /\ extractIdentifier "Cited by pmid: 777; this is PMID: 12345."
         = Some "777").
Proof. vm_compute. tauto. Qed.

(** C4, amended: a text that contains [PMID: 12345] is classified as a
    citation when its trimmed length is at least 20 and it contains none
    of the code-like fragments; the extracted identifier is [12345] when
    no marker matches in the text before that occurrence and the
    occurrence is not followed by a further digit. *)
Theorem marker_classified_and_extracted text_ :
  contains marker text_ = true ->
  ((20 <= String.length (strip text_))%nat ->
   has_code_indicator (strip text_) = false ->
   isPubmedCitation text_ = true)
  /\ (forall pre post,
        text_ = pre ++ marker ++ post ->
        extractIdentifier pre = None ->
        starts_with_digit post = false ->
        extractIdentifier text_ = Some "12345").
Proof.
  intros Hin. split.
  - intros Hlen Hcode. unfold isPubmedCitation.
    apply Nat.ltb_ge in Hlen. rewrite Hlen, Hcode.
    destruct (contains_inv _ _ Hin) as (pre & post & ->).
    rewrite marker_found_after_strip. reflexivity.
  - intros pre post -> Hpre Hpost. unfold extractIdentifier in *.
    rewrite search_group_leftmost by exact Hpre.
    apply pmid_group_at_marker, Hpost.
Qed.

Lemma marker_classified_and_extracted_witness :
  contains marker "Doe J. A trial. 2020. PMID: 12345." = true
  /\ isPubmedCitation "Doe J. A trial. 2020. PMID: 12345." = true
  /\ extractIdentifier "Doe J. A trial. 2020. PMID: 12345." = Some "12345".
Proof.
  destruct (marker_classified_and_extracted
              "Doe J. A trial. 2020. PMID: 12345." eq_refl)
    as [Hclass Hextract].
  split; [reflexivity|]. split.
  - apply Hclass; [vm_compute; lia | reflexivity].
  - apply (Hextract "Doe J. A trial. 2020. " "."); reflexivity.
Defined.

End Classifier.

(** ** The manager *)

Section ManagerFacts.

Context {datetime : Type}.
Variable isoformat : datetime -> string.
Variable fromisoformat : string -> option datetime.

Implicit Types (self : CitationManager datetime).
Implicit Types (c : Citation datetime) (cs : list (Citation datetime)).

(** *** Summaries touch the [summary] field only *)

Lemma apply_summaries_text m c : text (apply_summaries m c) = text c.
Proof. unfold apply_summaries. destruct (m !! text c); reflexivity. Qed.

Lemma apply_summaries_notes m c : notes (apply_summaries m c) = notes c.
Proof. unfold apply_summaries. destruct (m !! text c); reflexivity. Qed.

Lemma apply_summaries_empty c : apply_summaries ∅ c = c.
Proof. unfold apply_summaries. rewrite lookup_empty. reflexivity. Qed.

(** *** Saving changes the disk only *)

Lemma saveCitations_citations self :
  citations (saveCitations isoformat self) = citations self.
Proof. unfold saveCitations. destruct (writable _ _); reflexivity. Qed.

Lemma fmap_apply_summaries_empty cs : apply_summaries ∅ <$> cs = cs.
Proof.
  rewrite <- (list_fmap_id cs) at 2.
  apply list_fmap_ext. intros. apply apply_summaries_empty.
Qed.

Lemma updateSummaries_citations api self :
  exists m,
    citations (updateSummaries isoformat api self)
    = apply_summaries m <$> citations self.
Proof.
  unfold updateSummaries.
  destruct (openai_enabled self); cbn [negb];
    [|exists ∅; symmetry; apply fmap_apply_summaries_empty].
  destruct (bool_decide _);
    [exists ∅; symmetry; apply fmap_apply_summaries_empty|].
  rewrite saveCitations_citations. simpl. eauto.
Qed.

Lemma updateSummaries_texts api self :
  text <$> citations (updateSummaries isoformat api self)
  = text <$> citations self.
Proof.
  destruct (updateSummaries_citations api self) as [m ->].
  rewrite <- list_fmap_compose. apply list_fmap_ext.
  intros i c _. apply apply_summaries_text.
Qed.

(** *** Looking a text up *)

Lemma find_existing_None t cs :
  find_existing t cs = None <-> Forall (fun c => text c <> t) cs.
Proof. apply list_find_None. Qed.

Lemma find_existing_last t cs c :
  Forall (fun c' => text c' <> t) cs -> text c = t ->
  find_existing t (cs ++ [c]) = Some (length cs, c).
Proof.
  intros Hcs Hc. unfold find_existing.
  rewrite list_find_app_r by (apply list_find_None, Hcs).
  simpl. rewrite decide_True by exact Hc. reflexivity.
Qed.

(** *** The three ways out of [addCitation] *)

Lemma addCitation_rejected now api text_ notes_ self :
  isPubmedCitation text_ = false ->
  addCitation isoformat now api text_ notes_ self = (self, PyBool false).
Proof. intros H. unfold addCitation. rewrite H. reflexivity. Qed.

Lemma addCitation_new now api text_ notes_ self :
  isPubmedCitation text_ = true ->
  Forall (fun c => text c <> Py.strip text_) (citations self) ->
  addCitation isoformat now api text_ notes_ self
  = (updateSummaries isoformat api
       (saveCitations isoformat
          (with_citations
             (citations self
              ++ [mkCitation (Py.strip text_) now (extractIdentifier text_)
                             notes_ ""])
             self)),
     PyBool true).
Proof.
  intros H Hnew. unfold addCitation. rewrite H. simpl.
  apply find_existing_None in Hnew. rewrite Hnew. reflexivity.
Qed.

Lemma addCitation_existing now api text_ notes_ self i existing :
  isPubmedCitation text_ = true ->
  find_existing (Py.strip text_) (citations self) = Some (i, existing) ->
  addCitation isoformat now api text_ notes_ self
  = if Py.is_empty (Py.strip notes_) then (self, PyBool false)
    else (saveCitations isoformat
            (with_citations
               (<[i := append_note notes_ existing]> (citations self)) self),
          PyStr "note_appended").
Proof.
  intros H Hfind. unfold addCitation. rewrite H, Hfind. simpl.
  destruct (Py.is_empty (Py.strip notes_)); reflexivity.
Qed.

(** After a first add of a new text, the library is the old one (up to
    summaries) followed by the record of that text. *)
Lemma addCitation_new_citations now api text_ notes_ self :
  isPubmedCitation text_ = true ->
  Forall (fun c => text c <> Py.strip text_) (citations self) ->
  exists m,
    citations (addCitation isoformat now api text_ notes_ self).1
    = ((apply_summaries m <$> citations self)
       ++ [apply_summaries m
             (mkCitation (Py.strip text_) now (extractIdentifier text_)
                         notes_ "")])%list.
Proof.
  intros H Hnew. rewrite addCitation_new by assumption. simpl.
  destruct (updateSummaries_citations api
    (saveCitations isoformat
       (with_citations
          (citations self
           ++ [mkCitation (Py.strip text_) now (extractIdentifier text_)
                          notes_ ""]) self))) as [m ->].
  exists m. rewrite saveCitations_citations. simpl.
  rewrite fmap_app. reflexivity.
Qed.

Lemma Forall_other_text_summaries t m cs :
  Forall (fun c => text c <> t) cs ->
  Forall (fun c => text c <> t) (apply_summaries m <$> cs).
Proof.
  intros H. apply Forall_fmap. eapply Forall_impl; [exact H|].
  intros c Hc. simpl. rewrite apply_summaries_text. exact Hc.
Qed.

(** After a first add of a new text, a lookup of that text finds the new
    record, at the end of the library. *)
Lemma addCitation_new_found now api text_ notes_ self :
  isPubmedCitation text_ = true ->
  Forall (fun c => text c <> Py.strip text_) (citations self) ->
  exists c,
    find_existing (Py.strip text_)
      (citations (addCitation isoformat now api text_ notes_ self).1)
    = Some (length (citations self), c)
    /\ notes c = notes_.
Proof.
  intros Hok Hnew.
  destruct (addCitation_new_citations now api text_ notes_ self Hok Hnew)
    as [m ->].
  eexists. split.
  - rewrite <- (length_fmap (apply_summaries m) (citations self)).
    apply find_existing_last.
    + apply Forall_other_text_summaries, Hnew.
    + apply apply_summaries_text.
  - apply apply_summaries_notes.
Qed.

(** *** Adding the same text twice *)

(** C1: for a text the classifier accepts and a library with no record of
    it, a first [addCitation] returns [True] (Added) and stores one more
    record; a second [addCitation] of the same text with an empty note
    finds that record, returns [False] (DuplicateIgnored) and leaves the
    whole manager state, hence every record, as it was. *)
Theorem duplicate_add_is_ignored now api now' api' text_ note self :
  isPubmedCitation text_ = true ->
  Forall (fun c => text c <> Py.strip text_) (citations self) ->
  let first := addCitation isoformat now api text_ note self in
  let second := addCitation isoformat now' api' text_ "" first.1 in
  first.2 = PyBool true
  /\ length (citations first.1) = S (length (citations self))
  /\ is_Some (find_existing (Py.strip text_) (citations first.1))
  /\ second.2 = PyBool false
  /\ second.1 = first.1.
Proof.
  intros Hok Hnew first second.
  destruct (addCitation_new_citations now api text_ note self Hok Hnew)
    as [m Hcs].
  fold first in Hcs.
  assert (Hfind : find_existing (Py.strip text_) (citations first.1)
                  = Some (length (citations self),
                          apply_summaries m
                            (mkCitation (Py.strip text_) now
                               (extractIdentifier text_) note ""))).
  { rewrite Hcs.
    rewrite <- (length_fmap (apply_summaries m) (citations self)).
    apply find_existing_last.
    - apply Forall_other_text_summaries, Hnew.
    - apply apply_summaries_text. }
  assert (Hsecond : second = (first.1, PyBool false)).
  { unfold second. rewrite (addCitation_existing _ _ _ _ _ _ _ Hok Hfind).
    reflexivity. }
  split; [unfold first; rewrite addCitation_new by assumption; reflexivity|].
  split; [rewrite Hcs, length_app, length_fmap; simpl; lia|].
  split; [rewrite Hfind; eauto|].
  rewrite Hsecond. split; reflexivity.
Qed.

(** *** Accumulating notes *)

(** C2, amended: for a text the classifier accepts, a library with no
    record of it, a non-empty note [a] and a note [b] that is not empty
    after trimming, [addCitation(text, a)] then [addCitation(text, b)]
    return [True] (Added) then ["note_appended"] (NoteAppended), and
    afterwards exactly one record has that text; its notes are [a], the
    separator, and [b] trimmed, in that order. *)
Theorem notes_accumulate now api now' api' text_ a b self :
  isPubmedCitation text_ = true ->
  Forall (fun c => text c <> Py.strip text_) (citations self) ->
  a <> "" ->
  Py.strip b <> "" ->
  let first := addCitation isoformat now api text_ a self in
  let second := addCitation isoformat now' api' text_ b first.1 in
  first.2 = PyBool true
  /\ second.2 = PyStr "note_appended"
  /\ exists c,
       filter (fun c' => text c' = Py.strip text_) (citations second.1) = [c]
       /\ notes c = a ++ note_separator ++ Py.strip b.
Proof.
  intros Hok Hnew Ha Hb first second.
  destruct (addCitation_new_citations now api text_ a self Hok Hnew)
    as [m Hcs].
  fold first in Hcs.
  set (c0 := apply_summaries m
               (mkCitation (Py.strip text_) now (extractIdentifier text_) a ""))
    in *.
  assert (Htext : text c0 = Py.strip text_) by apply apply_summaries_text.
  assert (Hnotes : notes c0 = a) by apply apply_summaries_notes.
  assert (Hold : Forall (fun c => text c <> Py.strip text_)
                        (apply_summaries m <$> citations self))
    by apply Forall_other_text_summaries, Hnew.
  assert (Hfind : find_existing (Py.strip text_) (citations first.1)
                  = Some (length (apply_summaries m <$> citations self), c0)).
  { rewrite Hcs. apply find_existing_last; assumption. }
  assert (Hsecond : second
            = (saveCitations isoformat
                 (with_citations
                    ((apply_summaries m <$> citations self)
                     ++ [append_note b c0])%list first.1),
               PyStr "note_appended")).
  { unfold second. rewrite (addCitation_existing _ _ _ _ _ _ _ Hok Hfind).
    apply PyFacts.is_empty_false in Hb. rewrite Hb, Hcs.
    rewrite <- (Nat.add_0_r (length _)), insert_app_r. reflexivity. }
  split; [unfold first; rewrite addCitation_new by assumption; reflexivity|].
  rewrite Hsecond. split; [reflexivity|].
  exists (append_note b c0). cbn [fst]. rewrite saveCitations_citations.
  simpl. split.
  - assert (Hhit : text (append_note b c0) = Py.strip text_).
    { unfold append_note. destruct (Py.is_empty (notes c0)); exact Htext. }
    rewrite filter_app, filter_cons_True by exact Hhit.
    replace (filter _ (apply_summaries m <$> citations self))
      with (@nil (Citation datetime)); [reflexivity|].
    symmetry. clear -Hold. induction Hold as [|c cs Hc _ IH]; [reflexivity|].
    rewrite filter_cons_False by exact Hc. exact IH.
  - unfold append_note. rewrite Hnotes.
    apply PyFacts.is_empty_false in Ha. rewrite Ha. reflexivity.
Qed.

(** *** The value [addCitation] returns *)

(** C10: [addCitation] returns the same value, [False], when the
    classifier rejects the text and when the text is already stored and
    the note is empty after trimming; when a note is appended it returns
    the string ["note_appended"], which is not a [bool]. *)
Theorem addCitation_return_is_ambiguous now api text_ notes_ self :
  let result := addCitation isoformat now api text_ notes_ self in
  (isPubmedCitation text_ = false -> result = (self, PyBool false))
  /\ (isPubmedCitation text_ = true ->
      is_Some (find_existing (Py.strip text_) (citations self)) ->
      Py.strip notes_ = "" ->
      result = (self, PyBool false))
  /\ (isPubmedCitation text_ = true ->
      is_Some (find_existing (Py.strip text_) (citations self)) ->
      Py.strip notes_ <> "" ->
      result.2 = PyStr "note_appended" /\ forall b, result.2 <> PyBool b).
Proof.
  intros result. split; [apply addCitation_rejected|]. split.
  - intros Hok [[i existing] Hfind] Hnote. unfold result.
    rewrite (addCitation_existing _ _ _ _ _ _ _ Hok Hfind), Hnote.
    reflexivity.
  - intros Hok [[i existing] Hfind] Hnote. unfold result.
    rewrite (addCitation_existing _ _ _ _ _ _ _ Hok Hfind).
    apply PyFacts.is_empty_false in Hnote. rewrite Hnote. simpl.
    split; [reflexivity | discriminate].
Qed.

(** *** A disabled summary provider *)

(** C9: with the provider disabled, [updateSummaries] returns the manager
    state it was given, summaries and all, and
    [generateCitationSummaries] returns the empty mapping for every
    batch. *)
Theorem disabled_provider_is_silent api self batch :
  openai_enabled self = false ->
  updateSummaries isoformat api self = self
  /\ generateCitationSummaries (openai_enabled self) api batch = ∅.
Proof.
  intros Hoff. unfold updateSummaries, generateCitationSummaries.
  rewrite Hoff. split; reflexivity.
Qed.

(** *** Removing by position *)

(** C8: [removeCitation] with an index inside the bounds stores the
    records before that position followed by the records after it, in
    their order; with any other index it returns the manager state it was
    given. *)
Theorem removeCitation_bounds index self :
  let cs := citations self in
  ((0 <= index < Z.of_nat (length cs))%Z ->
   citations (removeCitation isoformat index self)
   = (take (Z.to_nat index) cs ++ drop (S (Z.to_nat index)) cs)%list)
  /\ (~ (0 <= index < Z.of_nat (length cs))%Z ->
      removeCitation isoformat index self = self).
Proof.
  intros cs. unfold removeCitation. fold cs. split; intros H.
  - destruct H as [H0 H1].
    apply Z.leb_le in H0. apply Z.ltb_lt in H1. rewrite H0, H1. simpl.
    rewrite saveCitations_citations. apply delete_take_drop.
  - destruct (0 <=? index)%Z eqn:H0; [|reflexivity].
    destruct (index <? Z.of_nat (length cs))%Z eqn:H1; [|reflexivity].
    exfalso. apply H. split; [apply Z.leb_le, H0 | apply Z.ltb_lt, H1].
Qed.

(** *** Uniqueness of the stored texts *)

Lemma trimmed_and_distinct_unique cs :
  trimmed_and_distinct cs -> unique_texts cs.
Proof.
  intros [Hdup Htrim] i j ci cj Hi Hj Heq.
  assert (Ti : (text <$> cs) !! i = Some (text ci))
    by (rewrite list_lookup_fmap, Hi; reflexivity).
  assert (Tj : (text <$> cs) !! j = Some (text cj))
    by (rewrite list_lookup_fmap, Hj; reflexivity).
  rewrite Forall_lookup in Htrim.
  rewrite (Htrim _ _ Ti), (Htrim _ _ Tj) in Heq.
  rewrite Heq in Ti. exact (NoDup_lookup _ _ _ _ Hdup Ti Tj).
Qed.

Lemma trimmed_and_distinct_texts cs cs' :
  text <$> cs' = text <$> cs ->
  trimmed_and_distinct cs -> trimmed_and_distinct cs'.
Proof. unfold trimmed_and_distinct. intros ->. tauto. Qed.

Lemma append_note_text note c : text (append_note note c) = text c.
Proof. unfold append_note. destruct (Py.is_empty (notes c)); reflexivity. Qed.

Lemma addCitation_preserves now api text_ notes_ self :
  trimmed_and_distinct (citations self) ->
  trimmed_and_distinct
    (citations (addCitation isoformat now api text_ notes_ self).1).
Proof.
  intros Hinv. destruct (isPubmedCitation text_) eqn:Hok;
    [|rewrite addCitation_rejected by exact Hok; exact Hinv].
  destruct (find_existing (Py.strip text_) (citations self))
    as [[i existing]|] eqn:Hfind.
  - rewrite (addCitation_existing _ _ _ _ _ _ _ Hok Hfind).
    destruct (Py.is_empty (Py.strip notes_)); [exact Hinv|]. cbn [fst].
    rewrite saveCitations_citations. simpl.
    apply (trimmed_and_distinct_texts (citations self)); [|exact Hinv].
    apply list_find_Some in Hfind as (Hi & _ & _).
    rewrite list_fmap_insert, append_note_text. apply list_insert_id.
    rewrite list_lookup_fmap, Hi. reflexivity.
  - apply find_existing_None in Hfind.
    rewrite addCitation_new by assumption. cbn [fst].
    destruct Hinv as [Hdup Htrim]. unfold trimmed_and_distinct.
    rewrite updateSummaries_texts, saveCitations_citations. simpl.
    rewrite fmap_app. simpl. split.
    + apply NoDup_app. split; [exact Hdup|]. split; [|apply NoDup_singleton].
      intros t Ht Hin. apply list_elem_of_singleton in Hin. subst t.
      apply list_elem_of_fmap in Ht as (c & Hc & Hin).
      rewrite Forall_forall in Hfind. apply (Hfind c Hin). congruence.
    + apply Forall_app. split; [exact Htrim|].
      constructor; [apply PyFacts.strip_idempotent | constructor].
Qed.

Lemma removeCitation_preserves index self :
  trimmed_and_distinct (citations self) ->
  trimmed_and_distinct (citations (removeCitation isoformat index self)).
Proof.
  intros [Hdup Htrim]. unfold removeCitation.
  destruct (_ && _); [|split; assumption].
  unfold trimmed_and_distinct. rewrite saveCitations_citations. simpl.
  rewrite list_fmap_delete. split.
  - eapply sublist_NoDup; [exact Hdup | apply sublist_delete].
  - apply Forall_delete, Htrim.
Qed.

Lemma step_preserves self self' :
  step isoformat self self' ->
  trimmed_and_distinct (citations self) ->
  trimmed_and_distinct (citations self').
Proof.
  intros Hstep Hinv. destruct Hstep.
  - apply addCitation_preserves, Hinv.
  - apply removeCitation_preserves, Hinv.
  - unfold clearAll. rewrite saveCitations_citations. split; constructor.
  - eapply trimmed_and_distinct_texts; [apply updateSummaries_texts | exact Hinv].
Qed.

Lemma reachable_trimmed_and_distinct self :
  reachable isoformat self -> trimmed_and_distinct (citations self).
Proof.
  induction 1 as [self Hempty | self self' _ IH Hstep].
  - rewrite Hempty. split; constructor.
  - exact (step_preserves _ _ Hstep IH).
Qed.

(** C5: in every state the manager reaches from an empty library by
    [addCitation], [removeCitation], [clearAll] and [updateSummaries], no
    two stored records have the same text after trimming, and the state
    after one more of these operations has the property again. *)
Theorem reachable_unique_texts self :
  reachable isoformat self ->
  unique_texts (citations self)
  /\ forall self', step isoformat self self' -> unique_texts (citations self').
Proof.
  intros Hreach. split.
  - apply trimmed_and_distinct_unique, reachable_trimmed_and_distinct, Hreach.
  - intros self' Hstep. apply trimmed_and_distinct_unique.
    exact (step_preserves _ _ Hstep (reachable_trimmed_and_distinct _ Hreach)).
Qed.

End ManagerFacts.

(** ** Persistence *)

Section PersistenceFacts.

Context {datetime : Type}.
Variable isoformat : datetime -> string.
Variable fromisoformat : string -> option datetime.

Implicit Types (self : CitationManager datetime).
Implicit Types (c : Citation datetime) (cs acc : list (Citation datetime)).

(** *** Elements that raise *)

Lemma item_error_raises item :
  item_error fromisoformat item ->
  exists e, citation_of_item fromisoformat item = Raised e.
Proof.
  intros [members H | members H | members stamp H Hstamp]; simpl.
  - rewrite H. eauto.
  - rewrite H. destruct (member "text" members); eauto.
  - rewrite H, Hstamp. destruct (member "text" members); eauto.
Qed.

Lemma first_raise_elem items item e :
  item ∈ items -> citation_of_item fromisoformat item = Raised e ->
  is_Some (first_raise fromisoformat items).
Proof.
  induction 1 as [item rest | item other rest _ IH]; intros He; simpl.
  - rewrite He. eauto.
  - destruct (citation_of_item fromisoformat other); eauto.
Qed.

Lemma load_items_fails items acc :
  is_Some (first_raise fromisoformat items) ->
  exists e, load_items fromisoformat items acc = Failed e.
Proof.
  revert acc. induction items as [|item rest IH]; intros acc [e He];
    simpl in *; [discriminate|].
  destruct (citation_of_item fromisoformat item); eauto.
  rewrite He. eauto.
Qed.

(** *** Elements that follow the schema *)

Lemma well_formed_item_built item :
  well_formed_item fromisoformat item ->
  exists c, citation_of_item fromisoformat item = Built c.
Proof.
  intros (members & tx & stamp & t & -> & Htext & Hstamp & Ht & Hpmid & Hn & Hs).
  simpl. rewrite Htext, Hstamp, Ht. unfold optional_str.
  destruct Hpmid as [-> | [-> | [p ->]]];
    destruct Hn as [-> | [n ->]]; destruct Hs as [-> | [s ->]]; eauto.
Qed.

Lemma load_items_completes items acc :
  Forall (well_formed_item fromisoformat) items ->
  exists cs,
    load_items fromisoformat items acc = Completed (acc ++ cs)
    /\ length cs = length items.
Proof.
  intros Hall. revert acc.
  induction Hall as [|item rest Hitem _ IH]; intros acc; simpl.
  - exists []. rewrite app_nil_r. eauto.
  - destruct (well_formed_item_built item Hitem) as [c ->].
    destruct (IH (acc ++ [c])%list) as (cs & -> & Hlen).
    exists (c :: cs). rewrite <- app_assoc. simpl. eauto.
Qed.

(** C7: a persisted input with a structural error (it does not decode,
    or an element lacks [text] or [timestamp], or a timestamp does not
    parse) makes [loadCitations] return normally with an empty
    collection; an input whose elements all follow the schema is loaded
    whole, one record per element, after the records already there. *)
Theorem load_fails_closed self f :
  home self !! data_file self = Some f ->
  (structural_error fromisoformat f ->
   loadCitations fromisoformat self = Some (with_citations [] self))
  /\ (forall items,
        f = Document (JArray items) ->
        Forall (well_formed_item fromisoformat) items ->
        exists cs,
          loadCitations fromisoformat self
          = Some (with_citations (citations self ++ cs) self)
          /\ length cs = length items).
Proof.
  intros Hfile. unfold loadCitations. rewrite Hfile. split.
  - intros [|items item Hin Herr]; [reflexivity|].
    destruct (item_error_raises item Herr) as [e He].
    destruct (load_items_fails items (citations self)
                (first_raise_elem items item e Hin He)) as [e' Hfail].
    unfold load_document. simpl. rewrite Hfail. reflexivity.
  - intros items -> Hall.
    destruct (load_items_completes items (citations self) Hall)
      as (cs & Hload & Hlen).
    exists cs. unfold load_document. simpl. rewrite Hload. eauto.
Qed.

(** *** Saving, then loading *)

Section RoundTrip.

(** The documented law of the library: [fromisoformat] is the inverse
    of [isoformat]. *)
Hypothesis isoformat_inverse :
  forall t, fromisoformat (isoformat t) = Some t.

Lemma citation_of_item_to_json c :
  citation_of_item fromisoformat (citation_to_json isoformat c) = Built c.
Proof.
  destruct c as [tx t [p|] n s]; simpl;
    rewrite isoformat_inverse; reflexivity.
Qed.

Lemma load_items_dump cs acc :
  load_items fromisoformat (citation_to_json isoformat <$> cs) acc
  = Completed (acc ++ cs).
Proof.
  revert acc. induction cs as [|c cs IH]; intros acc.
  - simpl. rewrite app_nil_r. reflexivity.
  - rewrite fmap_cons. cbn [load_items].
    rewrite citation_of_item_to_json, IH, <- app_assoc. reflexivity.
Qed.

(** C3: after [saveCitations] has written the file, a fresh manager on
    the same file (empty collection, same disk) loads a sequence of
    records equal to the saved one, in order and in every field. *)
Theorem save_then_load_round_trip self fresh :
  writable self (data_file self) = true ->
  home fresh = home (saveCitations isoformat self) ->
  data_file fresh = data_file self ->
  citations fresh = [] ->
  citations <$> loadCitations fromisoformat fresh = Some (citations self).
Proof.
  intros Hwrite Hhome Hfile Hempty. unfold loadCitations.
  rewrite Hhome, Hfile. unfold saveCitations. rewrite Hwrite.
  simpl. rewrite lookup_insert_eq.
  unfold load_document, dump. simpl.
  rewrite load_items_dump, Hempty. reflexivity.
Qed.

End RoundTrip.

(** *** Library names *)

Lemma loadCitations_names self self' :
  loadCitations fromisoformat self = Some self' ->
  library_name self' = library_name self /\ data_file self' = data_file self.
Proof.
  unfold loadCitations. destruct (home self !! data_file self) as [[|data]|].
  - intros [= <-]. split; reflexivity.
  - destruct (load_document fromisoformat data (citations self));
      intros [= <-]; split; reflexivity.
  - intros [= <-]. split; reflexivity.
Qed.

Lemma sanitize_safe name : all_chars safe_char (sanitize name) = true.
Proof.
  induction name as [|c name IH]; [reflexivity|].
  cbn [sanitize all_chars]. rewrite IH, andb_true_r.
  destruct (safe_char c) eqn:E; [exact E | reflexivity].
Qed.

Lemma sanitize_pointwise pre (ch : ascii) post :
  sanitize (pre ++ String ch post)
  = sanitize pre
    ++ String (if safe_char ch then ch else "_"%char) (sanitize post).
Proof.
  induction pre as [|a pre IH]; [reflexivity|].
  cbn [sanitize String.append]. rewrite IH. reflexivity.
Qed.

(** C6, amended: the new-library dialog trims the name it is given and
    replaces each character outside the safe set (word characters,
    hyphen, underscore) by an underscore, leaving the others as they are,
    before the name becomes the library name and enters the file name, and
    it turns down a name that is empty after trimming; [switchLibrary] and
    the constructor take the name they are given as the library name and
    build the file name from it, unchanged, and [switchLibrary] opens a
    library for any name that has no file yet. *)
Theorem library_name_sanitized_at_creation name self :
  (Py.strip name <> "" ->
   all_chars safe_char (sanitize (Py.strip name)) = true
   /\ (forall pre (ch : ascii) post,
         Py.strip name = pre ++ String ch post ->
         sanitize (Py.strip name)
         = sanitize pre
           ++ String (if safe_char ch then ch else "_"%char) (sanitize post))
   /\ forall self',
        createNewLibrary isoformat fromisoformat true name self = Some self' ->
        library_name self' = sanitize (Py.strip name)
        /\ (sanitize (Py.strip name) <> library_name self ->
            data_file self' = library_file (sanitize (Py.strip name))))
  /\ (Py.strip name = "" ->
      createNewLibrary isoformat fromisoformat true name self = Some self)
  /\ (forall self',
        switchLibrary isoformat fromisoformat name self = Some self' ->
        library_name self' = name /\ data_file self' = library_file name)
  /\ (forall enabled files can_write self',
        init fromisoformat name enabled files can_write = Some self' ->
        library_name self' = name /\ data_file self' = library_file name)
  /\ (home self !! library_file name = None ->
      library_file name <> data_file self ->
      is_Some (switchLibrary isoformat fromisoformat name self)).
Proof.
  assert (Hswitch : forall n self',
            switchLibrary isoformat fromisoformat n self = Some self' ->
            library_name self' = n /\ data_file self' = library_file n).
  { intros n self' H. apply loadCitations_names in H. exact H. }
  split; [|split; [|split; [|split]]].
  - intros Hname.
    split; [apply sanitize_safe|].
    split; [intros pre ch post ->; apply sanitize_pointwise|].
    intros self'. unfold createNewLibrary, switchToLibrary.
    apply PyFacts.is_empty_false in Hname. rewrite Hname. simpl.
    destruct (String.eqb_spec (sanitize (Py.strip name)) (library_name self))
      as [E | _].
    + intros [= <-]. split; [symmetry; exact E | congruence].
    + intros H. destruct (Hswitch _ _ H) as [-> ->]. split; reflexivity.
  - intros Hname. unfold createNewLibrary. rewrite Hname. reflexivity.
  - apply Hswitch.
  - intros enabled files can_write self' H.
    apply loadCitations_names in H. exact H.
  - intros Habsent Hother. unfold switchLibrary, loadCitations, saveCitations.
    destruct (writable self (data_file self));
      cbn [with_citations with_library with_home home data_file];
      rewrite ?lookup_insert_ne by congruence; rewrite Habsent; eauto.
Qed.

End PersistenceFacts.

(** ** The concrete timestamps satisfy the library law *)

Module NaiveDatetimeFacts.
Import NaiveDatetime.
Local Open Scope Z_scope.

Lemma digit_decimal x : 0 <= x < 10 -> Py.isdecimal (digit x) = true.
Proof.
  intros H.
  assert (x = 0 \/ x = 1 \/ x = 2 \/ x = 3 \/ x = 4 \/ x = 5 \/ x = 6
          \/ x = 7 \/ x = 8 \/ x = 9) as Hx by lia.
  repeat destruct Hx as [-> | Hx]; try subst x; reflexivity.
Qed.

Lemma digit_value_digit x : 0 <= x < 10 -> digit_value (digit x) = x.
Proof.
  intros H.
  assert (x = 0 \/ x = 1 \/ x = 2 \/ x = 3 \/ x = 4 \/ x = 5 \/ x = 6
          \/ x = 7 \/ x = 8 \/ x = 9) as Hx by lia.
  repeat destruct Hx as [-> | Hx]; try subst x; reflexivity.
Qed.

Lemma append_empty_r (s : string) : (s ++ "")%string = s.
Proof. induction s as [|a s IH]; simpl; [reflexivity | now rewrite IH]. Qed.

Lemma length_append (s t : string) :
  String.length (s ++ t) = (String.length s + String.length t)%nat.
Proof. induction s as [|a s IH]; simpl; [reflexivity | now rewrite IH]. Qed.

Lemma length_pad k n : String.length (pad k n) = k.
Proof.
  revert n. induction k as [|k IH]; intros n; [reflexivity|].
  cbn [pad]. rewrite length_append, IH. simpl. lia.
Qed.

(** Reading back a zero-padded number. *)
Lemma digits_pad k : forall j acc n rest,
  0 <= n < 10 ^ Z.of_nat k ->
  digits (k + j) acc (pad k n ++ rest)
  = digits j (acc * 10 ^ Z.of_nat k + n) rest.
Proof.
  induction k as [|k IH]; intros j acc n rest Hn.
  - simpl in *. f_equal. lia.
  - assert (Hpow : 10 ^ Z.of_nat (S k) = 10 * 10 ^ Z.of_nat k)
      by (rewrite Nat2Z.inj_succ, Z.pow_succ_r by lia; reflexivity).
    rewrite Hpow in *.
    assert (Hq : 0 <= n / 10 < 10 ^ Z.of_nat k)
      by (split; [apply Z.div_pos; lia | apply Z.div_lt_upper_bound; lia]).
    assert (Hr : 0 <= n mod 10 < 10) by (apply Z.mod_pos_bound; lia).
    cbn [pad]. rewrite PyFacts.append_assoc.
    replace (S k + j)%nat with (k + S j)%nat by lia.
    rewrite IH by exact Hq.
    cbn [digits String.append].
    rewrite digit_decimal, digit_value_digit by exact Hr.
    f_equal. pose proof (Z.div_mod n 10). lia.
Qed.

Lemma digits_pad_exact k n rest :
  0 <= n < 10 ^ Z.of_nat k ->
  digits k 0 (pad k n ++ rest) = Some (n, rest).
Proof.
  intros Hn. rewrite <- (Nat.add_0_r k) at 1.
  rewrite digits_pad by exact Hn. simpl. f_equal.
Qed.

Lemma valid_ranges d :
  Is_true (valid d) ->
  0 <= year d < 10 ^ Z.of_nat 4 /\ 0 <= month d < 10 ^ Z.of_nat 2
  /\ 0 <= day d < 10 ^ Z.of_nat 2 /\ 0 <= hour d < 10 ^ Z.of_nat 2
  /\ 0 <= minute d < 10 ^ Z.of_nat 2 /\ 0 <= second d < 10 ^ Z.of_nat 2
  /\ 0 <= microsecond d < 10 ^ Z.of_nat 6.
Proof.
  intros H. apply Is_true_true in H. unfold valid in H.
  repeat (apply andb_prop in H; destruct H as [H ?]).
  assert (days_in_month (year d) (month d) <= 31).
  { unfold days_in_month. destruct (is_leap (year d));
      repeat (match goal with |- context [match ?m with _ => _ end] =>
                destruct m end); lia. }
  change (10 ^ Z.of_nat 4) with 10000. change (10 ^ Z.of_nat 2) with 100.
  change (10 ^ Z.of_nat 6) with 1000000.
  lia.
Qed.

Lemma parse_time_isoformat hh mm ss us :
  0 <= hh < 10 ^ Z.of_nat 2 -> 0 <= mm < 10 ^ Z.of_nat 2 ->
  0 <= ss < 10 ^ Z.of_nat 2 -> 0 <= us < 10 ^ Z.of_nat 6 ->
  parse_time
    (pad 2 hh ++ ":" ++ pad 2 mm ++ ":" ++ pad 2 ss
     ++ (if us =? 0 then EmptyString else "." ++ pad 6 us))
  = Some (hh, mm, ss, us).
Proof.
  intros Hh Hm Hs Hu. unfold parse_time.
  rewrite (digits_pad_exact 2 hh) by exact Hh. cbn [mbind option_bind].
  cbn -[pad digits parse_fraction Z.eqb].
  rewrite (digits_pad_exact 2 mm) by exact Hm. cbn [mbind option_bind].
  cbn -[pad digits parse_fraction Z.eqb].
  rewrite (digits_pad_exact 2 ss) by exact Hs. cbn [mbind option_bind].
  destruct (Z.eqb_spec us 0) as [-> | Hne]; [reflexivity|].
  cbn -[pad digits parse_fraction].
  unfold parse_fraction. rewrite length_pad.
  cbn [Nat.eqb]. rewrite <- (append_empty_r (pad 6 us)).
  rewrite (digits_pad_exact 6 us) by exact Hu. reflexivity.
Qed.

Lemma parse_fields_isoformat d :
  Is_true (valid d) -> parse_fields (isoformat_fields d) = Some d.
Proof.
  intros Hv. destruct (valid_ranges d Hv) as (Hy & Hm & Hd & Hh & Hmi & Hs & Hu).
  destruct d as [y m dd hh mi ss us]. cbn [year month day hour minute second microsecond] in *.
  unfold parse_fields, isoformat_fields.
  cbn [year month day hour minute second microsecond].
  rewrite (digits_pad_exact 4 y) by exact Hy. cbn [mbind option_bind].
  cbn -[pad digits parse_time Z.eqb].
  rewrite (digits_pad_exact 2 m) by exact Hm. cbn [mbind option_bind].
  cbn -[pad digits parse_time Z.eqb].
  rewrite (digits_pad_exact 2 dd) by exact Hd. cbn [mbind option_bind].
  cbn [String.append].
  match goal with
  | |- context [parse_time ?s] =>
      replace (parse_time s) with (Some (hh, mi, ss, us))
        by (symmetry; apply parse_time_isoformat; assumption)
  end.
  reflexivity.
Qed.

(** [fromisoformat] is the inverse of [isoformat]. *)
Lemma fromisoformat_isoformat (t : datetime) :
  fromisoformat (isoformat t) = Some t.
Proof.
  destruct t as [d Hv]. unfold fromisoformat, isoformat. cbn [proj1_sig].
  rewrite (parse_fields_isoformat d Hv). cbn [mbind option_bind].
  unfold check. destruct (Is_true_dec (valid d)) as [ok | bad]; [|tauto].
  f_equal. apply (sig_eq_pi (fun d => Is_true (valid d))). reflexivity.
Qed.

End NaiveDatetimeFacts.

(** ** The properties on the sample data *)

Module OnSamples.
Import NaiveDatetime.

Lemma zuchero_accepted : isPubmedCitation Sample.zuchero = true.
Proof. vm_compute. reflexivity. Defined.

Lemma duplicate_add_is_ignored_witness :
  let first := Sample.add Sample.zuchero "a" (Sample.empty_library true) in
  let second := Sample.add Sample.zuchero "" first.1 in
  first.2 = PyBool true
  /\ length (citations first.1) = 1
  /\ is_Some (find_existing (Py.strip Sample.zuchero) (citations first.1))
  /\ second.2 = PyBool false
  /\ second.1 = first.1.
Proof.
  apply (duplicate_add_is_ignored isoformat Sample.now Sample.labels
           Sample.now Sample.labels Sample.zuchero "a"
           (Sample.empty_library true)).
  - exact zuchero_accepted.
  - constructor.
Defined.

(** C2, as stated, fails: a second note of blanks is non-empty, yet
    nothing is appended and [False] is returned; and a second note with
    a leading blank is appended without it. *)
Lemma blank_or_padded_note_not_appended_as_given :
  let first := Sample.add Sample.zuchero "a" (Sample.empty_library false) in
  let blank := Sample.add Sample.zuchero " " first.1 in
  let padded := Sample.add Sample.zuchero " b" first.1 in
  isPubmedCitation Sample.zuchero = true
  /\ first.2 = PyBool true
  /\ (" " <> "" /\ blank.2 = PyBool false
      /\ notes <$> citations blank.1 = ["a"])
  /\ (padded.2 = PyStr "note_appended"
      /\ notes <$> citations padded.1 = ["a" ++ note_separator ++ "b"]
      /\ "a" ++ note_separator ++ "b" <> "a" ++ note_separator ++ " b").
Proof. vm_compute. repeat split; discriminate. Qed.

Lemma notes_accumulate_witness :
  let first := Sample.add Sample.zuchero "a" (Sample.empty_library true) in
  let second := Sample.add Sample.zuchero " b " first.1 in
  first.2 = PyBool true
  /\ second.2 = PyStr "note_appended"
  /\ exists c,
       filter (fun c' => text c' = Py.strip Sample.zuchero)
              (citations second.1) = [c]
       /\ notes c = "a" ++ note_separator ++ Py.strip " b ".
Proof.
  apply (notes_accumulate isoformat Sample.now Sample.labels
           Sample.now Sample.labels Sample.zuchero "a" " b "
           (Sample.empty_library true)).
  - exact zuchero_accepted.
  - constructor.
  - discriminate.
  - vm_compute. discriminate.
Defined.

Lemma save_then_load_round_trip_witness :
  let saved := saveCitations isoformat Sample.three_records in
  let fresh := mkManager "default" [] (library_file "default") false
                         (home saved) (fun _ => true) in
  citations <$> loadCitations fromisoformat fresh
  = Some (citations Sample.three_records).
Proof.
  intros saved fresh.
  apply (save_then_load_round_trip isoformat fromisoformat
           NaiveDatetimeFacts.fromisoformat_isoformat
           Sample.three_records fresh); reflexivity.
Defined.

Lemma reachable_unique_texts_witness :
  let self := (Sample.add Sample.zuchero "" (Sample.empty_library false)).1 in
  reachable isoformat self
  /\ unique_texts (citations self)
  /\ forall self', step isoformat self self' -> unique_texts (citations self').
Proof.
  intros self.
  assert (Hreach : reachable isoformat self).
  { eapply reachable_step; [|apply step_addCitation].
    apply reachable_empty. reflexivity. }
  split; [exact Hreach|].
  exact (reachable_unique_texts isoformat self Hreach).
Defined.

(** C6, as stated, fails: [switchLibrary] builds the file name from the
    name it is given, unsafe characters included, and the new-library
    dialog turns down a name of blanks. *)
Lemma switchLibrary_keeps_unsafe_characters :
  let self := Sample.empty_library false in
  all_chars safe_char "a/b c" = false
  /\ library_name <$> switchLibrary isoformat fromisoformat "a/b c" self
     = Some "a/b c"
  /\ data_file <$> switchLibrary isoformat fromisoformat "a/b c" self
     = Some ".pubmed_citations_a/b c.json"
  /\ library_name <$> createNewLibrary isoformat fromisoformat true "   " self
     = Some "default".
Proof. vm_compute. repeat split. Qed.

Lemma library_name_sanitized_at_creation_witness :
  let self := Sample.empty_library false in
  (forall self',
     createNewLibrary isoformat fromisoformat true " my lib/x-1 " self
     = Some self' ->
     library_name self' = "my_lib_x-1"
     /\ data_file self' = ".pubmed_citations_my_lib_x-1.json")
  /\ (forall self',
        switchLibrary isoformat fromisoformat "my_lib_x-1" self = Some self' ->
        data_file self' = ".pubmed_citations_my_lib_x-1.json")
  /\ is_Some (switchLibrary isoformat fromisoformat "my_lib_x-1" self).
Proof.
  intros self.
  destruct (library_name_sanitized_at_creation isoformat fromisoformat
              " my lib/x-1 " self) as (Hcreate & _).
  destruct (library_name_sanitized_at_creation isoformat fromisoformat
              "my_lib_x-1" self) as (_ & _ & Hswitch & _ & Hopen).
  split; [|split].
  - intros self' H.
    destruct Hcreate as (_ & _ & Hname); [vm_compute; discriminate|].
    destruct (Hname self' H) as [Hlib Hfile].
    split; [exact Hlib | apply Hfile; vm_compute; discriminate].
  - intros self' H. exact (proj2 (Hswitch self' H)).
  - apply Hopen; [reflexivity | vm_compute; discriminate].
Defined.

Lemma load_fails_closed_witness :
  home Sample.over_broken_file !! data_file Sample.over_broken_file
  = Some Sample.no_timestamp
  /\ structural_error fromisoformat Sample.no_timestamp
  /\ loadCitations fromisoformat Sample.over_broken_file
     = Some (with_citations [] Sample.over_broken_file).
Proof.
  assert (Hfile : home Sample.over_broken_file
                  !! data_file Sample.over_broken_file
                  = Some Sample.no_timestamp) by (vm_compute; reflexivity).
  assert (Herr : structural_error fromisoformat Sample.no_timestamp).
  { eapply broken_item; [apply list_elem_of_here|].
    apply missing_timestamp. reflexivity. }
  split; [exact Hfile|]. split; [exact Herr|].
  exact (proj1 (load_fails_closed fromisoformat Sample.over_broken_file
                  Sample.no_timestamp Hfile) Herr).
Defined.

Lemma removeCitation_bounds_witness :
  text <$> citations (removeCitation isoformat 1 Sample.three_records)
  = ["first"; "third"]
  /\ removeCitation isoformat 3 Sample.three_records = Sample.three_records
  /\ removeCitation isoformat (-1) Sample.three_records = Sample.three_records.
Proof.
  split; [|split].
  - rewrite (proj1 (removeCitation_bounds isoformat 1 Sample.three_records));
      [reflexivity | simpl; lia].
  - apply (removeCitation_bounds isoformat 3 Sample.three_records). simpl. lia.
  - apply (removeCitation_bounds isoformat (-1) Sample.three_records). lia.
Defined.

Lemma disabled_provider_is_silent_witness :
  updateSummaries isoformat Sample.labels Sample.three_records
  = Sample.three_records
  /\ generateCitationSummaries false Sample.labels ["first"] = ∅.
Proof.
  apply (disabled_provider_is_silent isoformat Sample.labels
           Sample.three_records ["first"]).
  reflexivity.
Defined.

Lemma addCitation_return_is_ambiguous_witness :
  let stored := (Sample.add Sample.zuchero "" (Sample.empty_library false)).1 in
  Sample.add "print(1)" "" stored = (stored, PyBool false)
  /\ Sample.add Sample.zuchero " " stored = (stored, PyBool false)
  /\ (Sample.add Sample.zuchero "b" stored).2 = PyStr "note_appended".
Proof.
  intros stored.
  assert (Hfound : is_Some (find_existing (Py.strip Sample.zuchero)
                                          (citations stored))).
  { destruct (addCitation_new_found isoformat Sample.now Sample.labels
                Sample.zuchero "" (Sample.empty_library false)
                zuchero_accepted (Forall_nil_2 _)) as (c & Hc & _).
    exists (0, c). exact Hc. }
  split; [|split].
  - apply (proj1 (addCitation_return_is_ambiguous isoformat Sample.now
                    Sample.labels "print(1)" "" stored)).
    reflexivity.
  - apply (proj1 (proj2 (addCitation_return_is_ambiguous isoformat Sample.now
                           Sample.labels Sample.zuchero " " stored)));
      [exact zuchero_accepted | exact Hfound | reflexivity].
  - apply (proj2 (proj2 (addCitation_return_is_ambiguous isoformat Sample.now
                           Sample.labels Sample.zuchero "b" stored)));
      [exact zuchero_accepted | exact Hfound | discriminate].
Defined.

End OnSamples.

(** * Further properties *)

(** ** The identifier and the classifier *)

Module IdentifierFacts.
Import Py PyFacts Re ReFacts.

(** What a successful repetition has read. *)
Lemma rep_Some {R} cls : forall s lo hi (k : string -> string -> option R) r,
  rep cls lo hi k s = Some r ->
  exists m rest,
    s = m ++ rest /\ all_chars cls m = true
    /\ (lo <= String.length m)%nat /\ k m rest = Some r.
Proof.
  induction s as [|c s IH]; intros lo hi k r; cbn [rep].
  - destruct lo; [|discriminate]. intros H.
    exists EmptyString, EmptyString. repeat split; [lia | exact H].
  - assert (Hstop : match lo with O => k EmptyString (String c s) | S _ => None end
                    = Some r ->
                    exists m rest, String c s = m ++ rest
                      /\ all_chars cls m = true
                      /\ (lo <= String.length m)%nat /\ k m rest = Some r).
    { destruct lo; [|discriminate]. intros H.
      exists EmptyString, (String c s). repeat split; [lia | exact H]. }
    destruct (cls c && may_take hi) eqn:Hc; [|exact Hstop].
    destruct (rep cls (Nat.pred lo) (Nat.pred <$> hi)
                (fun m => k (String c m)) s) as [r'|] eqn:Hrec; [|exact Hstop].
    intros [= ->].
    destruct (IH _ _ _ _ Hrec) as (m & rest & -> & Hm & Hlo & Hk).
    apply andb_prop in Hc as [Hc _].
    exists (String c m), rest. cbn [all_chars String.length String.append].
    rewrite Hc, Hm. repeat split; [lia | exact Hk].
Qed.

(** A repetition without upper bound succeeds as soon as its
    continuation succeeds after some run of the class. *)
Lemma rep_is_Some {R} cls : forall m rest lo (k : string -> string -> option R),
  all_chars cls m = true -> (lo <= String.length m)%nat ->
  is_Some (k m rest) -> is_Some (rep cls lo None k (m ++ rest)).
Proof.
  induction m as [|c m IH]; intros rest lo k Hm Hlo Hk.
  - assert (lo = 0)%nat as -> by (simpl in Hlo; lia).
    cbn [String.append]. destruct rest as [|c rest]; cbn [rep]; [exact Hk|].
    destruct (cls c && may_take None); [|exact Hk].
    destruct (rep cls _ _ _ rest); [eauto | exact Hk].
  - cbn [all_chars] in Hm. apply andb_prop in Hm as [Hc Hm].
    cbn [String.append rep may_take]. rewrite Hc. cbn [andb].
    change (Nat.pred <$> None) with (@None nat).
    destruct (IH rest (Nat.pred lo) (fun x => k (String c x)) Hm) as [r ->];
      [cbn [String.length] in Hlo; lia | exact Hk | eauto].
Qed.

Lemma lit_Some {R} p : forall (k : string -> option R) s r,
  lit p k s = Some r -> exists rest, s = p ++ rest /\ k rest = Some r.
Proof.
  induction p as [|a p IH]; intros k s r; cbn [lit].
  - intros H. exists s. split; [reflexivity | exact H].
  - destruct s as [|b s]; [discriminate|].
    destruct (Ascii.eqb_spec a b) as [<- | _]; [|discriminate].
    intros H. destruct (IH _ _ _ H) as (rest & -> & Hk).
    exists rest. split; [reflexivity | exact Hk].
Qed.

Lemma lit_ci_Some {R} p : forall (k : string -> option R) s r,
  lit_ci p k s = Some r -> exists rest, k rest = Some r.
Proof.
  induction p as [|a p IH]; intros k s r; cbn [lit_ci].
  - eauto.
  - destruct s as [|b s]; [discriminate|].
    destruct (Ascii.eqb _ _); [apply IH | discriminate].
Qed.

Lemma search_Some {R} (m : string -> option R) : forall s r,
  search m s = Some r -> exists pre rest, s = pre ++ rest /\ m rest = Some r.
Proof.
  induction s as [|c s IH]; intros r; cbn [search].
  - destruct (m EmptyString) eqn:E; [|discriminate].
    intros [= <-]. exists EmptyString, EmptyString. split; [reflexivity | exact E].
  - destruct (m (String c s)) eqn:E.
    + intros [= <-]. exists EmptyString, (String c s).
      split; [reflexivity | exact E].
    + intros H. destruct (IH _ H) as (pre & rest & -> & Hm).
      exists (String c pre), rest. split; [reflexivity | exact Hm].
Qed.

(** A text is its trimmed form between two runs of characters. *)
Lemma lstrip_decompose s : exists a, s = a ++ lstrip s.
Proof.
  induction s as [|c s [a IH]]; [exists EmptyString; reflexivity|].
  cbn [lstrip]. destruct (isspace c).
  - exists (String c a). cbn [String.append]. rewrite <- IH. reflexivity.
  - exists EmptyString. reflexivity.
Qed.

Lemma rstrip_decompose s : exists b, s = rstrip s ++ b.
Proof.
  induction s as [|c s [b IH]]; [exists EmptyString; reflexivity|].
  cbn [rstrip]. destruct (is_empty (rstrip s) && isspace c) eqn:E.
  - exists (String c s). reflexivity.
  - exists b. cbn [String.append]. rewrite <- IH. reflexivity.
Qed.

Lemma strip_decompose s : exists a b, s = a ++ strip s ++ b.
Proof.
  destruct (lstrip_decompose s) as [a Ha].
  destruct (rstrip_decompose (lstrip s)) as [b Hb].
  exists a, b. unfold strip. rewrite <- Hb. exact Ha.
Qed.

(** Where the case-sensitive pattern of the classifier matches, the
    case-insensitive pattern of the extraction matches too, whatever
    follows. *)
Lemma pmid_pattern_group s tail :
  is_Some (pmid_pattern s) -> is_Some (pmid_group_pattern (s ++ tail)).
Proof.
  intros [[] H]. unfold pmid_pattern in H.
  apply lit_Some in H as (rest & -> & H).
  unfold star in H. apply rep_Some in H as (ws & rest' & -> & Hws & _ & H).
  unfold plus in H. apply rep_Some in H as (ds & rest'' & -> & Hds & Hlen & _).
  unfold pmid_group_pattern.
  rewrite !append_assoc. cbn [String.append lit_ci].
  change (lit_ci EmptyString ?k ?x) with (k x).
  repeat (match goal with
          | |- context [Ascii.eqb (lower_char ?a) (lower_char ?a)] =>
              rewrite (Ascii.eqb_refl (lower_char a))
          end).
  unfold star. apply rep_is_Some; [exact Hws | lia |].
  unfold digit_group. apply rep_is_Some; [exact Hds | exact Hlen | eauto].
Qed.

End IdentifierFacts.

Section MoreClassifier.
Import Py PyFacts Re ReFacts IdentifierFacts.

(** X1: an extracted identifier is a non-empty run of decimal digits. *)
Theorem extracted_identifier_is_digits text_ p :
  extractIdentifier text_ = Some p ->
  p <> "" /\ all_chars isdecimal p = true.
Proof.
  unfold extractIdentifier. intros H.
  apply search_Some in H as (pre & rest & _ & H).
  unfold pmid_group_pattern in H. apply lit_ci_Some in H as (rest' & H).
  unfold star in H. apply rep_Some in H as (ws & rest'' & _ & _ & _ & H).
  unfold digit_group in H.
  apply rep_Some in H as (ds & tail & _ & Hds & Hlen & [= <-]).
  split; [|exact Hds]. intros ->. simpl in Hlen. lia.
Qed.

Lemma extracted_identifier_is_digits_witness :
  extractIdentifier Sample.zuchero = Some "23831087"
  /\ "23831087" <> "" /\ all_chars isdecimal "23831087" = true.
Proof.
  split; [reflexivity|].
  apply (extracted_identifier_is_digits Sample.zuchero "23831087").
  reflexivity.
Defined.

(** X2: a text in whose trimmed form the classifier finds its identifier
    indicator ([PMID:], optional blanks, digits) always yields an
    identifier at extraction, although the extraction reads the untrimmed
    text and ignores letter case. *)
Theorem pmid_indicator_gives_identifier text_ :
  found (search pmid_pattern (strip text_)) = true ->
  is_Some (extractIdentifier text_).
Proof.
  intros H. destruct (search pmid_pattern (strip text_)) as [[]|] eqn:E;
    [clear H | discriminate].
  apply search_Some in E as (pre & rest & Hsplit & Hm).
  destruct (strip_decompose text_) as (a & b & Htext).
  unfold extractIdentifier. rewrite Htext, Hsplit.
  rewrite append_assoc, <- (append_assoc a pre).
  apply search_found, pmid_pattern_group. rewrite Hm. eauto.
Qed.

Lemma pmid_indicator_gives_identifier_witness :
  found (search pmid_pattern (strip "  see PMID:77 (in press)  ")) = true
  /\ is_Some (extractIdentifier "  see PMID:77 (in press)  ").
Proof.
  split; [reflexivity|].
  apply (pmid_indicator_gives_identifier "  see PMID:77 (in press)  ").
  reflexivity.
Defined.

(** X3: the classifier gives a text and its trimmed form the same
    verdict, and a text it accepts has at least 20 characters after
    trimming and contains none of the code-like fragments. *)
Theorem accepted_text_shape text_ :
  isPubmedCitation (strip text_) = isPubmedCitation text_
  /\ (isPubmedCitation text_ = true ->
      (20 <= String.length (strip text_))%nat
      /\ has_code_indicator (strip text_) = false).
Proof.
  split.
  - unfold isPubmedCitation. rewrite strip_idempotent. reflexivity.
  - unfold isPubmedCitation.
    destruct (String.length (strip text_) <? 20)%nat eqn:Hlen; [discriminate|].
    destruct (has_code_indicator (strip text_)); [discriminate|].
    intros _. apply Nat.ltb_ge in Hlen. split; [exact Hlen | reflexivity].
Qed.

Lemma accepted_text_shape_witness :
  (20 <= String.length (strip Sample.zuchero))%nat
  /\ has_code_indicator (strip Sample.zuchero) = false.
Proof.
  apply (accepted_text_shape Sample.zuchero). vm_compute. reflexivity.
Defined.

End MoreClassifier.

(** ** More on the manager *)

Section MoreManager.

Context {datetime : Type}.
Variable isoformat : datetime -> string.
Variable fromisoformat : string -> option datetime.

Implicit Types (self : CitationManager datetime).
Implicit Types (c : Citation datetime) (cs : list (Citation datetime)).

Lemma append_nil_r (s : string) : s ++ "" = s.
Proof. induction s as [|a s IH]; simpl; [reflexivity | now rewrite IH]. Qed.

Lemma extends_refl c : extends c c.
Proof.
  repeat split. exists EmptyString. symmetry. apply append_nil_r.
Qed.

Lemma extends_apply_summaries m c : extends c (apply_summaries m c).
Proof.
  unfold apply_summaries. destruct (m !! text c); [|apply extends_refl].
  repeat split. exists EmptyString. symmetry. apply append_nil_r.
Qed.

Lemma extends_append_note note c : extends c (append_note note c).
Proof.
  unfold append_note. destruct (notes c) as [|a old] eqn:E; simpl.
  - repeat split. exists (Py.strip note). rewrite E. reflexivity.
  - repeat split. exists (note_separator ++ Py.strip note).
    rewrite E. reflexivity.
Qed.

(** X4: [addCitation] keeps every record that was stored, at its
    position, with the same text, time and identifier; its notes can only
    have grown at the end. *)
Theorem addCitation_keeps_records now api text_ notes_ self i c :
  citations self !! i = Some c ->
  exists c',
    citations (addCitation isoformat now api text_ notes_ self).1 !! i = Some c'
    /\ extends c c'.
Proof.
  intros Hi. destruct (isPubmedCitation text_) eqn:Hok.
  2:{ rewrite addCitation_rejected by exact Hok. exists c.
      split; [exact Hi | apply extends_refl]. }
  destruct (find_existing (Py.strip text_) (citations self))
    as [[j existing]|] eqn:Hfind.
  - rewrite (addCitation_existing isoformat now api text_ notes_ self j
               existing Hok Hfind).
    destruct (Py.is_empty (Py.strip notes_)).
    { exists c. split; [exact Hi | apply extends_refl]. }
    cbn [fst]. rewrite saveCitations_citations. cbn [with_citations citations].
    apply list_find_Some in Hfind as (Hj & _ & _).
    destruct (decide (i = j)) as [-> | Hne].
    + assert (existing = c) as -> by congruence.
      exists (append_note notes_ c). split; [|apply extends_append_note].
      apply list_lookup_insert_eq. eapply lookup_lt_Some, Hj.
    + exists c. split; [|apply extends_refl].
      rewrite list_lookup_insert_ne by congruence. exact Hi.
  - apply find_existing_None in Hfind.
    destruct (addCitation_new_citations isoformat now api text_ notes_ self
                Hok Hfind) as [m ->].
    exists (apply_summaries m c). split; [|apply extends_apply_summaries].
    rewrite lookup_app_l by (rewrite length_fmap; eapply lookup_lt_Some, Hi).
    rewrite list_lookup_fmap, Hi. reflexivity.
Qed.

(** X5: with the provider disabled, the first [addCitation] of an accepted
    text appends exactly one record and touches no other: the trimmed
    text, the time of the call, the extracted identifier, the note as it
    was given (untrimmed) and an empty summary. *)
Theorem addCitation_new_record now api text_ notes_ self :
  openai_enabled self = false ->
  isPubmedCitation text_ = true ->
  Forall (fun c => text c <> Py.strip text_) (citations self) ->
  citations (addCitation isoformat now api text_ notes_ self).1
  = (citations self
     ++ [mkCitation (Py.strip text_) now (extractIdentifier text_) notes_ ""])%list.
Proof.
  intros Hoff Hok Hnew. rewrite addCitation_new by assumption. cbn [fst].
  unfold updateSummaries.
  replace (openai_enabled (saveCitations isoformat _)) with false.
  - cbn [negb]. apply saveCitations_citations.
  - unfold saveCitations. destruct (writable _ _); symmetry; exact Hoff.
Qed.

(** *** Every change is saved *)

Lemma saveCitations_in_sync self :
  writable self (data_file self) = true ->
  in_sync isoformat (saveCitations isoformat self).
Proof.
  intros Hw. unfold in_sync, saveCitations. rewrite Hw. simpl.
  apply lookup_insert_eq.
Qed.

Lemma saveCitations_writable self :
  writable (saveCitations isoformat self) (data_file (saveCitations isoformat self))
  = writable self (data_file self).
Proof. unfold saveCitations. destruct (writable self _) eqn:E; simpl; congruence. Qed.

Lemma updateSummaries_same_or_saved api self :
  updateSummaries isoformat api self = self
  \/ exists cs, updateSummaries isoformat api self
                = saveCitations isoformat (with_citations cs self).
Proof.
  unfold updateSummaries. destruct (openai_enabled self); cbn [negb]; [|auto].
  destruct (bool_decide _); eauto.
Qed.

(** X6: when the file of the active library can be written, each of
    [addCitation], [removeCitation], [clearAll] and [updateSummaries]
    either returns the state it was given or leaves on disk exactly the
    records it leaves in memory. *)
Theorem operations_save_what_they_change self self' :
  writable self (data_file self) = true ->
  step isoformat self self' ->
  self' = self \/ in_sync isoformat self'.
Proof.
  intros Hw Hstep. destruct Hstep as [now api text_ notes_ self | index self
                                     | self | api self].
  - unfold addCitation. destruct (isPubmedCitation text_); cbn [negb]; [|auto].
    destruct (find_existing _ _) as [[j existing]|].
    + destruct (Py.is_empty (Py.strip notes_)); cbn [negb fst]; [auto|].
      right. apply saveCitations_in_sync. exact Hw.
    + right. cbn [fst].
      match goal with
      | |- in_sync _ (updateSummaries _ _ (saveCitations _ ?s)) =>
          set (grown := s);
          assert (Hg : writable grown (data_file grown) = true) by exact Hw
      end.
      destruct (updateSummaries_same_or_saved api (saveCitations isoformat grown))
        as [-> | [cs ->]].
      * apply saveCitations_in_sync, Hg.
      * apply saveCitations_in_sync. cbn [with_citations writable data_file].
        rewrite saveCitations_writable. exact Hg.
  - unfold removeCitation. destruct (_ && _); [|auto].
    right. apply saveCitations_in_sync. exact Hw.
  - right. apply saveCitations_in_sync. exact Hw.
  - destruct (updateSummaries_same_or_saved api self) as [-> | [cs ->]]; [auto|].
    right. apply saveCitations_in_sync. exact Hw.
Qed.

(** *** The other libraries are left alone *)

Lemma same_library_refl self : same_library self self.
Proof. repeat split. Qed.

Lemma same_library_trans self1 self2 self3 :
  same_library self1 self2 -> same_library self2 self3 ->
  same_library self1 self3.
Proof.
  intros (Hn & Hf & He & Hw & Hh) (Hn' & Hf' & He' & Hw' & Hh').
  repeat split; try congruence.
  intros f Hne. rewrite Hh' by congruence. apply Hh, Hne.
Qed.

Lemma same_library_save cs self :
  same_library self (saveCitations isoformat (with_citations cs self)).
Proof.
  unfold saveCitations. destruct (writable _ _); repeat split.
  intros f Hne. simpl. apply lookup_insert_ne. congruence.
Qed.

Lemma same_library_updateSummaries api self :
  same_library self (updateSummaries isoformat api self).
Proof.
  destruct (updateSummaries_same_or_saved api self) as [-> | [cs ->]];
    [apply same_library_refl | apply same_library_save].
Qed.

(** X7: [addCitation], [removeCitation], [clearAll] and
    [updateSummaries] stay within the active library: the library name,
    its file name, the provider flag and the set of writable files are
    unchanged, and so is every file other than the file of the active
    library. *)
Theorem operations_leave_other_libraries self self' :
  step isoformat self self' -> same_library self self'.
Proof.
  intros [now api text_ notes_ self0 | index self0 | self0 | api self0].
  - unfold addCitation. destruct (isPubmedCitation text_); cbn [negb];
      [|apply same_library_refl].
    destruct (find_existing _ _) as [[j existing]|].
    + destruct (Py.is_empty (Py.strip notes_)); cbn [negb fst];
        [apply same_library_refl | apply same_library_save].
    + cbn [fst]. eapply same_library_trans; [apply same_library_save|].
      apply same_library_updateSummaries.
  - unfold removeCitation. destruct (_ && _);
      [apply same_library_save | apply same_library_refl].
  - apply same_library_save.
  - apply same_library_updateSummaries.
Qed.

(** *** Summaries *)

Lemma apply_summaries_keeps m c :
  text (apply_summaries m c) = text c
  /\ timestamp (apply_summaries m c) = timestamp c
  /\ pmid (apply_summaries m c) = pmid c
  /\ notes (apply_summaries m c) = notes c.
Proof. unfold apply_summaries. destruct (m !! text c); repeat split. Qed.

(** X8: [updateSummaries] changes nothing but summaries: the library has
    the same length and each record keeps its text, time, identifier and
    notes; when the request to the service fails, the records are the
    same as before. *)
Theorem updateSummaries_only_summaries api self :
  length (citations (updateSummaries isoformat api self))
  = length (citations self)
  /\ (forall i c,
        citations self !! i = Some c ->
        exists c',
          citations (updateSummaries isoformat api self) !! i = Some c'
          /\ text c' = text c /\ timestamp c' = timestamp c
          /\ pmid c' = pmid c /\ notes c' = notes c)
  /\ ((forall request, api request = None) ->
      citations (updateSummaries isoformat api self) = citations self).
Proof.
  split; [|split].
  - destruct (updateSummaries_citations isoformat api self) as [m ->].
    apply length_fmap.
  - intros i c Hi.
    destruct (updateSummaries_citations isoformat api self) as [m ->].
    exists (apply_summaries m c). split; [|apply apply_summaries_keeps].
    rewrite list_lookup_fmap, Hi. reflexivity.
  - intros Hfail. unfold updateSummaries.
    destruct (openai_enabled self); cbn [negb]; [|reflexivity].
    destruct (bool_decide _); [reflexivity|].
    rewrite saveCitations_citations. cbn [with_citations citations].
    unfold generateCitationSummaries. rewrite Hfail.
    destruct (negb true || _); apply fmap_apply_summaries_empty.
Qed.

(** *** Loading *)

Lemma load_items_Completed items : forall acc loaded_,
  load_items fromisoformat items acc = Completed loaded_ ->
  exists cs, loaded_ = (acc ++ cs)%list /\ length cs = length items.
Proof.
  induction items as [|item rest IH]; intros acc loaded_; cbn [load_items].
  - intros [= <-]. exists []. rewrite app_nil_r. eauto.
  - destruct (citation_of_item fromisoformat item) as [c | e |];
      [|discriminate|destruct (first_raise _ _); discriminate].
    intros H. destruct (IH _ _ H) as (cs & -> & Hlen).
    exists (c :: cs). rewrite <- app_assoc. simpl. eauto.
Qed.

(** X9: [loadCitations] never loads a file in part. Whatever the file
    holds, the collection afterwards is either empty or the collection
    before followed by one record for every element of the document;
    the manager stays on its library and the disk is not written. *)
Theorem loadCitations_all_or_nothing self self' data :
  home self !! data_file self = Some (Document data) ->
  loadCitations fromisoformat self = Some self' ->
  (citations self' = []
   \/ exists items cs,
        iterate data = inr items
        /\ citations self' = (citations self ++ cs)%list
        /\ length cs = length items)
  /\ home self' = home self
  /\ library_name self' = library_name self
  /\ data_file self' = data_file self.
Proof.
  intros Hfile. unfold loadCitations, load_document. rewrite Hfile.
  destruct (iterate data) as [e | items] eqn:Hiter.
  { intros [= <-]. repeat split. left. reflexivity. }
  destruct (load_items fromisoformat items (citations self)) as [loaded_ | e |]
    eqn:Hload; [| |discriminate].
  - intros [= <-]. repeat split. right.
    destruct (load_items_Completed _ _ _ Hload) as (cs & -> & Hlen).
    exists items, cs. split; [reflexivity|]. split; [reflexivity | exact Hlen].
  - intros [= <-]. repeat split. left. reflexivity.
Qed.

Lemma loadCitations_home self self' :
  loadCitations fromisoformat self = Some self' ->
  home self' = home self /\ writable self' = writable self
  /\ data_file self' = data_file self
  /\ library_name self' = library_name self.
Proof.
  unfold loadCitations. destruct (home self !! data_file self) as [[|data]|].
  - intros [= <-]. repeat split.
  - destruct (load_document fromisoformat data (citations self));
      intros [= <-]; repeat split.
  - intros [= <-]. repeat split.
Qed.

Section SwitchBack.

Hypothesis isoformat_inverse :
  forall t, fromisoformat (isoformat t) = Some t.

Lemma loadCitations_after_save self fresh :
  home fresh !! data_file fresh = Some (Document (dump isoformat (citations self))) ->
  citations fresh = [] ->
  exists loaded_,
    loadCitations fromisoformat fresh = Some loaded_
    /\ citations loaded_ = citations self.
Proof.
  intros Hfile Hempty. unfold loadCitations, load_document.
  rewrite Hfile. unfold dump. cbn [iterate].
  rewrite (load_items_dump isoformat fromisoformat isoformat_inverse), Hempty.
  eexists. split; reflexivity.
Qed.

(** X10: switching to another library and back restores the records of
    the library one left, provided its file could be written and is the
    file of its name: the switch away saves them and the switch back loads
    them again. *)
Theorem switch_away_and_back self other away :
  writable self (data_file self) = true ->
  data_file self = library_file (library_name self) ->
  library_file other <> data_file self ->
  switchLibrary isoformat fromisoformat other self = Some away ->
  exists back,
    switchLibrary isoformat fromisoformat (library_name self) away = Some back
    /\ citations back = citations self
    /\ library_name back = library_name self.
Proof.
  intros Hw Hfile Hother Haway.
  unfold switchLibrary in Haway.
  apply loadCitations_home in Haway as (Hhome & Hwr & Hdf & _).
  cbn [with_citations with_library home writable data_file] in *.
  assert (Hsaved : home away !! data_file self
                   = Some (Document (dump isoformat (citations self)))).
  { rewrite Hhome. unfold saveCitations. rewrite Hw. simpl.
    apply lookup_insert_eq. }
  unfold switchLibrary.
  destruct (loadCitations_after_save self
              (with_citations []
                 (with_library (library_name self)
                    (saveCitations isoformat away)))) as (back & Hback & Hcs).
  - cbn [with_citations with_library home data_file]. rewrite <- Hfile.
    rewrite <- Hsaved. unfold saveCitations.
    destruct (writable away (data_file away)); [|reflexivity].
    simpl. apply lookup_insert_ne. rewrite Hdf. exact Hother.
  - reflexivity.
  - exists back. split; [exact Hback|]. split; [exact Hcs|].
    apply loadCitations_home in Hback as (_ & _ & _ & ->). reflexivity.
Qed.

End SwitchBack.

End MoreManager.

(** ** The summary helper *)

Section Summaries.

Implicit Types (batch : list string) (summaries : gmap string string).

(** The label read from the [i]-th line of an answer (counting from 0). *)
Lemma parse_lines_cons batch i line rest summaries :
  parse_lines batch i (line :: rest) summaries
  = parse_lines batch (S i) rest
      match batch !! i with
      | Some citation =>
          if Py.is_empty (Py.strip line) then summaries
          else
            <[citation :=
                if Py.startswith (numbered i) (Py.strip line)
                then Py.strip (Py.drop (String.length (numbered i))
                                       (Py.strip line))
                else Py.strip line]> summaries
      | None => summaries
      end.
Proof. reflexivity. Qed.

Lemma parse_lines_sound batch : forall lines i summaries key label,
  parse_lines batch i lines summaries !! key = Some label ->
  summaries !! key = Some label
  \/ (key ∈ batch /\ Py.strip label = label).
Proof.
  induction lines as [|line rest IH]; intros i summaries key label;
    [intros H; left; exact H|].
  rewrite parse_lines_cons. intros H. apply IH in H as [H | H]; [|right; exact H].
  destruct (batch !! i) as [citation|] eqn:Hi; [|left; exact H].
  destruct (Py.is_empty (Py.strip line)); [left; exact H|].
  destruct (decide (citation = key)) as [-> | Hne].
  - rewrite lookup_insert_eq in H. injection H as <-. right.
    split; [eapply list_elem_of_lookup_2, Hi|].
    destruct (Py.startswith _ _); apply PyFacts.strip_idempotent.
  - rewrite lookup_insert_ne in H by exact Hne. left. exact H.
Qed.

(** X11: every key of the mapping [generateCitationSummaries] returns is
    one of the citations of the batch, and every label has neither
    leading nor trailing whitespace; a disabled helper, an empty batch and
    a failed request give the empty mapping. *)
Theorem summaries_are_for_the_batch enabled api batch :
  (forall key label,
     generateCitationSummaries enabled api batch !! key = Some label ->
     key ∈ batch /\ Py.strip label = label)
  /\ (enabled = false \/ batch = [] \/ api (batched_prompt batch) = None ->
      generateCitationSummaries enabled api batch = ∅).
Proof.
  unfold generateCitationSummaries. split.
  - intros key label. destruct (negb enabled || _);
      [rewrite lookup_empty; discriminate|].
    destruct (api _) as [content|]; [|rewrite lookup_empty; discriminate].
    intros H. apply parse_lines_sound in H as [H | H]; [|exact H].
    rewrite lookup_empty in H. discriminate.
  - intros [-> | [-> | ->]]; [reflexivity | |].
    + rewrite bool_decide_eq_true_2 by reflexivity.
      rewrite orb_true_r. reflexivity.
    + destruct (negb enabled || _); reflexivity.
Qed.

Lemma parse_lines_later batch key : forall lines i summaries,
  (forall j, (i <= j)%nat -> batch !! j <> Some key) ->
  parse_lines batch i lines summaries !! key = summaries !! key.
Proof.
  induction lines as [|line rest IH]; intros i summaries Hfree; [reflexivity|].
  rewrite parse_lines_cons, IH by (intros j Hj; apply Hfree; lia).
  destruct (batch !! i) as [citation|] eqn:Hi; [|reflexivity].
  destruct (Py.is_empty (Py.strip line)); [reflexivity|].
  apply lookup_insert_ne. intros ->. apply (Hfree i); [lia | exact Hi].
Qed.

Lemma parse_lines_at batch key i :
  NoDup batch -> batch !! i = Some key ->
  forall lines start summaries,
    (start <= i)%nat ->
    parse_lines batch start lines summaries !! key
    = match lines !! (i - start) with
      | Some line =>
          if Py.is_empty (Py.strip line) then summaries !! key
          else Some (if Py.startswith (numbered i) (Py.strip line)
                     then Py.strip (Py.drop (String.length (numbered i))
                                            (Py.strip line))
                     else Py.strip line)
      | None => summaries !! key
      end.
Proof.
  intros Hdup Hkey.
  assert (Hafter : forall j, (S i <= j)%nat -> batch !! j <> Some key).
  { intros j Hj Hjk. pose proof (NoDup_lookup _ _ _ _ Hdup Hkey Hjk). lia. }
  induction lines as [|line rest IH]; intros start summaries Hstart;
    [reflexivity|].
  rewrite parse_lines_cons.
  destruct (decide (start = i)) as [-> | Hne].
  - rewrite Nat.sub_diag. cbn [lookup list_lookup].
    rewrite parse_lines_later by exact Hafter. rewrite Hkey.
    destruct (Py.is_empty (Py.strip line)); [reflexivity|].
    apply lookup_insert_eq.
  - rewrite IH by lia.
    replace (i - start)%nat with (S (i - S start)) by lia.
    cbn [lookup list_lookup].
    assert (Hsame : match batch !! start with
                    | Some citation =>
                        if Py.is_empty (Py.strip line) then summaries
                        else <[citation :=
                                 if Py.startswith (numbered start) (Py.strip line)
                                 then Py.strip
                                        (Py.drop (String.length (numbered start))
                                                 (Py.strip line))
                                 else Py.strip line]> summaries
                    | None => summaries
                    end !! key = summaries !! key).
    { destruct (batch !! start) as [citation|] eqn:Hs; [|reflexivity].
      destruct (Py.is_empty (Py.strip line)); [reflexivity|].
      apply lookup_insert_ne. intros ->.
      pose proof (NoDup_lookup _ _ _ _ Hdup Hkey Hs). lia. }
    rewrite Hsame. reflexivity.
Qed.

(** X12: for a batch of pairwise distinct citations, the label of the
    [i]-th citation comes from the [i]-th line of the trimmed answer and
    from no other: the line trimmed, without its leading ordinal
    ["i+1."] if it has one; a blank or missing line gives the citation no
    label. *)
Theorem summary_comes_from_its_line api batch content i key :
  NoDup batch ->
  batch !! i = Some key ->
  api (batched_prompt batch) = Some content ->
  generateCitationSummaries true api batch !! key
  = match Py.split_lines (Py.strip content) !! i with
    | Some line =>
        if Py.is_empty (Py.strip line) then None
        else Some (if Py.startswith (numbered i) (Py.strip line)
                   then Py.strip (Py.drop (String.length (numbered i))
                                          (Py.strip line))
                   else Py.strip line)
    | None => None
    end.
Proof.
  intros Hdup Hkey Hreply. unfold generateCitationSummaries.
  rewrite bool_decide_eq_false_2 by (intros ->; discriminate).
  cbn [negb orb]. rewrite Hreply.
  rewrite (parse_lines_at batch key i Hdup Hkey) by lia.
  rewrite Nat.sub_0_r, lookup_empty. reflexivity.
Qed.

End Summaries.

(** ** The list of libraries *)

Section Libraries.
Import Py PyMore.

Lemma all_chars_app p (s t : string) :
  all_chars p (s ++ t) = all_chars p s && all_chars p t.
Proof.
  induction s as [|c s IH]; [reflexivity|].
  cbn [String.append all_chars]. rewrite IH. apply andb_assoc.
Qed.

Lemma all_chars_impl (p q : ascii -> bool) s :
  (forall c, p c = true -> q c = true) ->
  all_chars p s = true -> all_chars q s = true.
Proof.
  intros Hpq. induction s as [|c s IH]; [reflexivity|]. cbn [all_chars].
  intros [Hc Hs]%andb_prop. rewrite (Hpq c Hc), (IH Hs). reflexivity.
Qed.

Lemma take_while_all p s : all_chars p s = true -> take_while p s = s.
Proof.
  induction s as [|c s IH]; [reflexivity|]. cbn [all_chars take_while].
  intros [-> Hs]%andb_prop. rewrite (IH Hs). reflexivity.
Qed.

Lemma startswith_prefix p s : startswith p (p ++ s) = true.
Proof.
  induction p as [|a p IH]; [reflexivity|].
  cbn [String.append startswith]. rewrite Ascii.eqb_refl. exact IH.
Qed.

Lemma endswith_suffix p s : endswith p (s ++ p) = true.
Proof.
  induction s as [|c s IH].
  - cbn [String.append]. destruct p; cbn [endswith];
      rewrite String.eqb_refl; reflexivity.
  - cbn [String.append endswith]. rewrite IH. apply orb_true_r.
Qed.

Lemma string_length_app (s t : string) :
  String.length (s ++ t) = (String.length s + String.length t)%nat.
Proof. induction s as [|a s IH]; simpl; [reflexivity | now rewrite IH]. Qed.

(** A safe character is neither a separator nor a dot. *)
Lemma safe_char_plain c :
  safe_char c = true ->
  negb (Ascii.eqb c "/") = true /\ negb (Ascii.eqb c ".") = true.
Proof.
  destruct c as [[] [] [] [] [] [] [] []]; vm_compute; intros H;
    solve [discriminate H | split; reflexivity].
Qed.

Lemma before_last_dot_no_dot s :
  all_chars (fun c => negb (Ascii.eqb c ".")) s = true ->
  before_last_dot s = None.
Proof.
  induction s as [|c s IH]; [reflexivity|]. cbn [all_chars before_last_dot].
  intros [Hc Hs]%andb_prop. rewrite (IH Hs).
  destruct (Ascii.eqb c "."); [discriminate | reflexivity].
Qed.

Lemma before_last_dot_last a t :
  all_chars (fun c => negb (Ascii.eqb c ".")) t = true ->
  before_last_dot (a ++ String "." t) = Some a.
Proof.
  intros Ht. induction a as [|c a IH].
  - cbn [String.append before_last_dot].
    rewrite (before_last_dot_no_dot t Ht). reflexivity.
  - cbn [String.append before_last_dot]. rewrite IH. reflexivity.
Qed.

Lemma replace_from_no_dot new s :
  all_chars (fun c => negb (Ascii.eqb c ".")) s = true ->
  replace_from library_prefix new 0 s = s.
Proof.
  induction s as [|c s IH]; [reflexivity|]. cbn [all_chars].
  intros [Hc Hs]%andb_prop. cbn [replace_from].
  unfold library_prefix at 1. cbn [startswith].
  rewrite Ascii.eqb_sym. apply negb_true_iff in Hc. rewrite Hc. cbn [andb].
  rewrite (IH Hs). reflexivity.
Qed.

(** The entry of a library file is read back as the library name. *)
Lemma library_of_entry_library_file name :
  all_chars safe_char name = true ->
  library_of_entry (library_file name) = name.
Proof.
  intros Hsafe.
  assert (Hdot : all_chars (fun c => negb (Ascii.eqb c ".")) name = true)
    by (eapply all_chars_impl; [|exact Hsafe]; intros c Hc;
        apply (safe_char_plain c Hc)).
  unfold library_of_entry, library_file, stem.
  rewrite <- PyFacts.append_assoc.
  change ".json" with (String "." "json").
  rewrite before_last_dot_last by reflexivity.
  rewrite !string_length_app.
  replace ((0 <? _ + _)%nat && _) with true.
  - unfold replace, library_prefix. cbn [is_empty].
    cbn [String.append replace_from startswith Ascii.eqb Bool.eqb andb
         String.length Nat.sub].
    apply (replace_from_no_dot "" name Hdot).
  - symmetry. apply andb_true_intro. cbn [String.length].
    split; [apply Nat.ltb_lt | apply Nat.ltb_lt]; lia.
Qed.

Lemma library_file_matches name :
  matches_library_pattern (library_file name) = true.
Proof.
  unfold matches_library_pattern, library_file.
  rewrite (startswith_prefix library_prefix), <- PyFacts.append_assoc.
  rewrite (endswith_suffix library_suffix), !string_length_app.
  cbn [andb]. apply Nat.leb_le. cbn [String.length library_prefix library_suffix].
  unfold library_prefix, library_suffix. cbn [String.length]. lia.
Qed.

Lemma library_file_entry name :
  all_chars safe_char name = true ->
  directory_entry (library_file name) = library_file name.
Proof.
  intros Hsafe. apply take_while_all. unfold library_file.
  rewrite !all_chars_app.
  rewrite (all_chars_impl safe_char _ name (fun c Hc => proj1 (safe_char_plain c Hc)) Hsafe).
  reflexivity.
Qed.

Lemma glob_libraries_elem (files : gmap string file) name :
  all_chars safe_char name = true ->
  is_Some (files !! library_file name) ->
  library_file name ∈ glob_libraries files.
Proof.
  intros Hsafe Hfile. unfold glob_libraries.
  apply list_elem_of_In, filter_In. split; [|apply library_file_matches].
  apply list_elem_of_In, elem_of_elements, elem_of_list_to_set.
  rewrite <- (library_file_entry name Hsafe) at 1.
  apply list_elem_of_fmap_2, elem_of_elements, elem_of_dom, Hfile.
Qed.

Lemma getAvailableLibraries_elem (files : gmap string file) name :
  name ∈ getAvailableLibraries files
  <-> name = "default" \/ name ∈ library_of_entry <$> glob_libraries files.
Proof.
  unfold getAvailableLibraries. rewrite merge_sort_Permutation.
  destruct (bool_decide_reflect
              ("default" ∈ library_of_entry <$> glob_libraries files))
    as [Hin | Hout].
  - split; [auto|]. intros [-> | H]; assumption.
  - rewrite elem_of_app, list_elem_of_singleton. tauto.
Qed.

(** X13: the list of libraries always contains ["default"], whatever is
    on disk, and is sorted. *)
Theorem getAvailableLibraries_default_sorted (files : gmap string file) :
  "default" ∈ getAvailableLibraries files
  /\ Sorted String.le (getAvailableLibraries files).
Proof.
  split.
  - apply getAvailableLibraries_elem. left. reflexivity.
  - apply (Sorted_merge_sort String.le).
Qed.

(** X14: a library whose file exists under the name the manager gives it
    is listed under its own name, when the name consists of safe
    characters (the names the new-library dialog produces). *)
Theorem saved_library_is_listed (files : gmap string file) name :
  all_chars safe_char name = true ->
  is_Some (files !! library_file name) ->
  name ∈ getAvailableLibraries files.
Proof.
  intros Hsafe Hfile. apply getAvailableLibraries_elem. right.
  rewrite <- (library_of_entry_library_file name Hsafe) at 1.
  apply list_elem_of_fmap_2, glob_libraries_elem; assumption.
Qed.

End Libraries.

(** ** The export *)

Module SortFacts.
Import PyMore.

Section Sorting.
Context {A K : Type} (key : A -> K) (lt : K -> K -> bool).

Lemma insert_sorted_Permutation x l : insert_sorted key lt x l ≡ₚ x :: l.
Proof.
  induction l as [|y l IH]; cbn [insert_sorted]; [reflexivity|].
  destruct (lt (key y) (key x)); [|reflexivity].
  rewrite IH. apply Permutation_swap.
Qed.

Lemma sort_by_Permutation l : sort_by key lt l ≡ₚ l.
Proof.
  induction l as [|x l IH]; [reflexivity|].
  cbn [sort_by foldr]. fold (sort_by key lt l).
  rewrite insert_sorted_Permutation, IH. reflexivity.
Qed.

Hypothesis lt_asym : forall a b, lt a b = true -> lt b a = false.

Lemma insert_sorted_Sorted x l :
  Sorted (in_order key lt) l -> Sorted (in_order key lt) (insert_sorted key lt x l).
Proof.
  induction 1 as [|y l Hl IH Hhd]; cbn [insert_sorted].
  - repeat constructor.
  - destruct (lt (key y) (key x)) eqn:Hyx.
    + constructor; [exact IH|].
      destruct Hhd as [|z l Hyz]; cbn [insert_sorted].
      * constructor. apply lt_asym, Hyx.
      * destruct (lt (key z) (key x)); constructor;
          [exact Hyz | apply lt_asym, Hyx].
    + constructor; [constructor; assumption|]. constructor. exact Hyx.
Qed.

Lemma sort_by_Sorted l : Sorted (in_order key lt) (sort_by key lt l).
Proof.
  induction l as [|x l IH]; [constructor|].
  cbn [sort_by foldr]. apply insert_sorted_Sorted, IH.
Qed.

End Sorting.

(** Stability, for keys with a boolean equality: the elements of one key
    come out in the order in which they went in. *)
Section Stability.
Context {A K : Type} (key : A -> K) (lt : K -> K -> bool).
Context (same : K -> K -> bool).
Hypothesis same_eq : forall a b, same a b = true -> a = b.
Hypothesis lt_irrefl : forall a, lt a a = false.

Lemma insert_sorted_stable k x l :
  List.filter (fun y => same k (key y)) (insert_sorted key lt x l)
  = List.filter (fun y => same k (key y)) (x :: l).
Proof.
  induction l as [|y l IH]; [reflexivity|]. cbn [insert_sorted].
  destruct (lt (key y) (key x)) eqn:Hyx; [|reflexivity].
  cbn [List.filter] in *. rewrite IH.
  destruct (same k (key x)) eqn:Hx; [|reflexivity].
  destruct (same k (key y)) eqn:Hy; [|reflexivity].
  apply same_eq in Hx, Hy. rewrite <- Hx, <- Hy, lt_irrefl in Hyx.
  discriminate.
Qed.

Lemma sort_by_stable k l :
  List.filter (fun y => same k (key y)) (sort_by key lt l)
  = List.filter (fun y => same k (key y)) l.
Proof.
  induction l as [|x l IH]; [reflexivity|].
  cbn [sort_by foldr]. fold (sort_by key lt l).
  rewrite insert_sorted_stable. cbn [List.filter]. rewrite IH. reflexivity.
Qed.

End Stability.

Lemma Sorted_weaken {A} (R R' : A -> A -> Prop) l :
  (forall a b, R a b -> R' a b) -> Sorted R l -> Sorted R' l.
Proof.
  intros HR. induction 1 as [|x l _ IH Hhd]; constructor; [exact IH|].
  destruct Hhd; constructor. apply HR. assumption.
Qed.

Lemma ltb_asym a b : String.ltb a b = true -> String.ltb b a = false.
Proof.
  unfold String.ltb. rewrite (String.compare_antisym b a).
  destruct (String.compare a b); simpl; congruence.
Qed.

Lemma ltb_irrefl a : String.ltb a a = false.
Proof.
  destruct (String.ltb a a) eqn:E; [|reflexivity].
  rewrite (ltb_asym a a E) in E. discriminate.
Qed.

Lemma not_ltb_le a b : String.ltb b a = false -> String.le a b.
Proof.
  unfold String.ltb, String.le, String.leb.
  rewrite (String.compare_antisym a b).
  destruct (String.compare b a); simpl; [constructor | discriminate | constructor].
Qed.

End SortFacts.

Section ExportFacts.
Import Py PyMore SortFacts.

Context {datetime : Type}.
Variable earlier : datetime -> datetime -> bool.

Lemma lower_char_of_letter c :
  isalpha_ascii c = true -> islower_ascii (lower_char c) = true.
Proof.
  destruct c as [[] [] [] [] [] [] [] []]; vm_compute; intros H;
    solve [discriminate H | reflexivity].
Qed.

Lemma lower_of_letters s :
  all_chars isalpha_ascii s = true -> all_chars islower_ascii (lower s) = true.
Proof.
  induction s as [|c s IH]; [reflexivity|]. cbn [all_chars lower].
  intros [Hc Hs]%andb_prop. rewrite (lower_char_of_letter c Hc), (IH Hs).
  reflexivity.
Qed.

Lemma keep_all p s : all_chars p (keep p s) = true.
Proof.
  induction s as [|c s IH]; [reflexivity|]. cbn [keep].
  destruct (p c) eqn:Hc; [|exact IH]. cbn [all_chars]. rewrite Hc, IH.
  reflexivity.
Qed.

Lemma author_pattern_letters s group :
  author_pattern s = Some group ->
  all_chars isalpha_ascii group = true /\ group <> "".
Proof.
  unfold author_pattern. destruct s as [|c s]; [discriminate|].
  destruct (isupper_ascii c) eqn:Hc; [|discriminate].
  intros H. apply IdentifierFacts.rep_Some in H
    as (m & rest & _ & Hm & _ & [= <-]).
  split; [|discriminate]. cbn [all_chars]. unfold isalpha_ascii at 1.
  rewrite Hc. cbn [orb andb].
  eapply all_chars_impl; [|exact Hm].
  intros a Ha. unfold isalpha_ascii. rewrite Ha. apply orb_true_r.
Qed.

(** X15: the sort key [extractFirstAuthor] computes consists of lower-case
    ASCII letters only, whatever the text, and is the same for a text and
    for its trimmed form. *)
Theorem extractFirstAuthor_lower_letters citation_text :
  all_chars islower_ascii (extractFirstAuthor citation_text) = true
  /\ extractFirstAuthor (strip citation_text) = extractFirstAuthor citation_text.
Proof.
  split.
  - unfold extractFirstAuthor.
    destruct (author_pattern (strip citation_text)) as [group|] eqn:E.
    + apply lower_of_letters, (author_pattern_letters _ _ E).
    + apply lower_of_letters, keep_all.
  - unfold extractFirstAuthor. rewrite PyFacts.strip_idempotent. reflexivity.
Qed.

(** X16: the export writes every citation once: the exported sequence is
    a rearrangement of the library, it is the library itself when no sort
    is asked for, and the header states the number of citations. *)
Theorem export_writes_every_citation options
    (citations : list (Citation datetime)) :
  export_order earlier options citations ≡ₚ citations
  /\ (sort_by_time options = false -> sort_by_author options = false ->
      export_order earlier options citations = citations)
  /\ exists entries,
       export_text earlier options citations
       = "Citations Export (" ++ str_of_nat (length citations) ++ " total)"
         ++ entries.
Proof.
  assert (Hperm : export_order earlier options citations ≡ₚ citations).
  { unfold export_order, sort_by_reversed.
    destruct (sort_by_time options); [apply sort_by_Permutation|].
    destruct (sort_by_author options); [apply sort_by_Permutation|].
    reflexivity. }
  split; [exact Hperm|]. split.
  - intros Ht Ha. unfold export_order. rewrite Ht, Ha. reflexivity.
  - unfold export_text. rewrite (Permutation_length Hperm).
    eexists. reflexivity.
Qed.

(** X17: sorted by author, the export is in ascending order of the
    authors' keys; sorted by time, no citation comes before a later
    one (for a comparison of timestamps that is asymmetric). *)
Theorem export_order_sorted options (citations : list (Citation datetime)) :
  (sort_by_time options = false -> sort_by_author options = true ->
   Sorted (fun a b => String.le (extractFirstAuthor (text a))
                                (extractFirstAuthor (text b)))
          (export_order earlier options citations))
  /\ (sort_by_time options = true ->
      (forall t u, earlier t u = true -> earlier u t = false) ->
      Sorted (fun a b => earlier (timestamp a) (timestamp b) = false)
             (export_order earlier options citations)).
Proof.
  split.
  - intros Ht Ha. unfold export_order. rewrite Ht, Ha.
    eapply Sorted_weaken;
      [|apply (sort_by_Sorted (fun c => extractFirstAuthor (text c))
                              String.ltb ltb_asym)].
    intros a b H. apply not_ltb_le, H.
  - intros Ht Hasym. unfold export_order, sort_by_reversed. rewrite Ht.
    apply (sort_by_Sorted timestamp (fun a b => earlier b a)).
    intros a b H. apply Hasym, H.
Qed.

(** X18: sorting by author is stable: the citations of one author key are
    exported in the order they have in the library. *)
Theorem export_by_author_is_stable options
    (citations : list (Citation datetime)) author :
  sort_by_time options = false ->
  List.filter (fun c => String.eqb author (extractFirstAuthor (text c)))
              (export_order earlier options citations)
  = List.filter (fun c => String.eqb author (extractFirstAuthor (text c)))
                citations.
Proof.
  intros Ht. unfold export_order. rewrite Ht.
  destruct (sort_by_author options); [|reflexivity].
  apply (sort_by_stable (fun c => extractFirstAuthor (text c)) String.ltb
                        String.eqb).
  - intros a b H. apply String.eqb_eq, H.
  - apply ltb_irrefl.
Qed.

End ExportFacts.

(** ** The clipboard listener *)

Module ListenerFacts.
Import Listener.

Lemma onClipboardChanged_emits current_text self self' e :
  onClipboardChanged current_text self = (self', Some e) ->
  e = current_text /\ e <> "" /\ e <> last_text self
  /\ last_text self' = e /\ is_monitoring self' = is_monitoring self.
Proof.
  unfold onClipboardChanged.
  destruct (Py.is_empty current_text) eqn:He; [discriminate|].
  destruct (String.eqb_spec current_text (last_text self)) as [|Hne];
    [discriminate|].
  intros [= <- <-]. repeat split; [|exact Hne].
  apply PyFacts.is_empty_false, He.
Qed.

Lemma onClipboardChanged_silent current_text self self' :
  onClipboardChanged current_text self = (self', None) -> self' = self.
Proof.
  unfold onClipboardChanged. destruct (_ && _); [discriminate|].
  intros [= <-]. reflexivity.
Qed.

Lemma last_any_default (l : list string) x d d' :
  List.last (x :: l) d = List.last (x :: l) d'.
Proof.
  revert x. induction l as [|y l IH]; intros x; [reflexivity|].
  change (List.last (y :: l) d = List.last (y :: l) d'). apply IH.
Qed.

Lemma run_nonempty events : forall self, Forall (fun e => e <> "") (run events self).2.
Proof.
  induction events as [|[t | | t] rest IH]; intros self; cbn [run];
    [constructor | apply IH | apply IH |].
  destruct (is_monitoring self); [|apply IH].
  destruct (onClipboardChanged t self) as [self' [e|]] eqn:Hc.
  - specialize (IH self'). destruct (run rest self') as [final later].
    cbn [snd] in *. constructor; [|exact IH].
    apply (onClipboardChanged_emits _ _ _ _ Hc).
  - specialize (IH self'). destruct (run rest self') as [final later].
    exact IH.
Qed.

Lemma run_session texts : forall self,
  is_monitoring self = true ->
  no_repeat (last_text self) (run (DataChanged <$> texts) self).2
  /\ last_text (run (DataChanged <$> texts) self).1
     = List.last (run (DataChanged <$> texts) self).2 (last_text self)
  /\ is_monitoring (run (DataChanged <$> texts) self).1 = true.
Proof.
  induction texts as [|t rest IH]; intros self Hmon; cbn [fmap list_fmap run].
  - repeat split. exact Hmon.
  - fold (@fmap list _ _ _ DataChanged rest). rewrite Hmon.
    destruct (onClipboardChanged t self) as [self' [e|]] eqn:Hc.
    + destruct (onClipboardChanged_emits _ _ _ _ Hc)
        as (_ & _ & Hne & Hlast & Hmon').
      rewrite Hmon in Hmon'. specialize (IH self' Hmon').
      destruct (run (DataChanged <$> rest) self') as [final later].
      cbn [fst snd] in *. rewrite Hlast in IH.
      destruct IH as (Hrep & Hfinal & Hm). repeat split; try assumption.
      rewrite Hfinal. destruct later as [|t' later]; [reflexivity|].
      apply (last_any_default later t' e (last_text self)).
    + apply onClipboardChanged_silent in Hc. subst self'.
      specialize (IH self Hmon).
      destruct (run (DataChanged <$> rest) self) as [final later]. exact IH.
Qed.

(** X19: the listener never emits an empty text, whatever happens around
    it; while it is monitoring, no emitted text repeats the one emitted
    just before it (nor, for the first, the text it started from), and
    [last_text] ends as the last text emitted; while it is not
    monitoring, clipboard changes emit nothing and change nothing. *)
Theorem listener_emissions events texts self :
  Forall (fun e => e <> "") (run events self).2
  /\ (is_monitoring self = true ->
      no_repeat (last_text self) (run (DataChanged <$> texts) self).2
      /\ last_text (run (DataChanged <$> texts) self).1
         = List.last (run (DataChanged <$> texts) self).2 (last_text self))
  /\ (is_monitoring self = false ->
      run (DataChanged <$> texts) self = (self, [])).
Proof.
  split; [apply run_nonempty|]. split.
  - intros Hmon. destruct (run_session texts self Hmon) as (H1 & H2 & _).
    split; assumption.
  - intros Hoff. induction texts as [|t rest IH]; [reflexivity|].
    cbn [fmap list_fmap run]. rewrite Hoff. exact IH.
Qed.

End ListenerFacts.

(** ** The callers of the manager *)

Section WindowFacts.

Context {datetime : Type}.
Variable isoformat : datetime -> string.

Implicit Types (self : CitationManager datetime).

(** X20: in [onNewClipboardText] the status "already exists" is shown only
    for a text the classifier accepted and the library already held, with
    a note that is empty after trimming, and the manager is then as it
    was; a text the classifier rejects, or a dismissed dialog, changes
    nothing and shows no status; "saved" is shown only for a text that was
    not stored, which then is the last record. *)
Theorem clipboard_text_status now api dialog_accepted dialog_notes text_ self :
  let result := onNewClipboardText isoformat now api dialog_accepted
                  dialog_notes text_ self in
  (result.2 = CitationAlreadyExists ->
   result.1 = self
   /\ isPubmedCitation text_ = true
   /\ is_Some (find_existing (Py.strip text_) (citations self))
   /\ Py.strip dialog_notes = "")
  /\ (isPubmedCitation text_ = false \/ dialog_accepted = false ->
      result = (self, NoStatus))
  /\ (forall with_note,
        result.2 = CitationSaved with_note ->
        find_existing (Py.strip text_) (citations self) = None
        /\ exists c,
             find_existing (Py.strip text_) (citations result.1)
             = Some (length (citations self), c)
             /\ notes c = dialog_notes).
Proof.
  intros result. unfold result, onNewClipboardText.
  destruct (isPubmedCitation text_) eqn:Hok.
  2:{ split; [discriminate|]. split; [reflexivity | discriminate]. }
  destruct dialog_accepted.
  2:{ split; [discriminate|]. split; [reflexivity | discriminate]. }
  destruct (find_existing (Py.strip text_) (citations self))
    as [[j existing]|] eqn:Hfind.
  - rewrite (addCitation_existing isoformat now api text_ dialog_notes self j
               existing Hok Hfind).
    destruct (Py.is_empty (Py.strip dialog_notes)) eqn:Hnote; cbn [fst snd].
    + split; [|split; [intros [|]; discriminate | discriminate]].
      intros _. repeat split; [eauto|].
      destruct (Py.strip dialog_notes); [reflexivity | discriminate].
    + split; [discriminate|]. split; [intros [|]; discriminate | discriminate].
  - pose proof Hfind as Hnew. apply find_existing_None in Hnew.
    destruct (addCitation_new_found isoformat now api text_ dialog_notes self
                Hok Hnew) as (c & Hc & Hnotes).
    rewrite (addCitation_new isoformat now api text_ dialog_notes self Hok Hnew)
      in *.
    cbn [fst snd] in *.
    split; [discriminate|]. split; [intros [|]; discriminate|].
    intros with_note _. split; [reflexivity|]. eauto.
Qed.

(** The indices of the rows after a removal. *)
Lemma renumbered_rows (r n : nat) :
  (r < n)%nat ->
  (fun old_index : Z =>
     if (Z.of_nat r <? old_index)%Z then (old_index - 1)%Z else old_index)
  <$> delete r (Z.of_nat <$> seq 0 n)
  = Z.of_nat <$> seq 0 (n - 1).
Proof.
  intros Hr. apply list_eq. intros k.
  rewrite !list_lookup_fmap.
  destruct (decide (k < r)%nat) as [Hk | Hk].
  - rewrite list_lookup_delete_lt, list_lookup_fmap by exact Hk.
    rewrite !lookup_seq_lt by lia. cbn [fmap option_fmap option_map].
    destruct (Z.ltb_spec (Z.of_nat r) (Z.of_nat (0 + k))); [lia | reflexivity].
  - rewrite list_lookup_delete_ge, list_lookup_fmap by lia.
    destruct (decide (k < n - 1)%nat) as [Hkn | Hkn].
    + rewrite !lookup_seq_lt by lia. cbn [fmap option_fmap option_map].
      destruct (Z.ltb_spec (Z.of_nat r) (Z.of_nat (0 + S k))); [|lia].
      f_equal. lia.
    + rewrite !lookup_seq_ge by lia. reflexivity.
Qed.

(** X21: the window's [removeCitation] keeps the list and the library in
    step. When row [i] of the list carries index [i] for every stored
    record, removing the selected row removes that record from the
    library and leaves a list whose row [i] again carries index [i];
    without a selection nothing changes. *)
Theorem window_removal_keeps_rows_aligned current_row items self :
  aligned items self ->
  ((0 <= current_row < Z.of_nat (length (citations self)))%Z ->
   exists items' self',
     window_removeCitation isoformat current_row items self
     = Some (items', self')
     /\ citations self' = delete (Z.to_nat current_row) (citations self)
     /\ aligned items' self')
  /\ ((current_row < 0)%Z ->
      window_removeCitation isoformat current_row items self
      = Some (items, self)).
Proof.
  intros Haligned. split.
  - intros [H0 Hn]. unfold window_removeCitation.
    apply Z.leb_le in H0 as H0'. rewrite H0'. unfold aligned in Haligned.
    assert (Hrow : items !! Z.to_nat current_row = Some current_row).
    { rewrite Haligned, list_lookup_fmap, lookup_seq_lt by lia.
      cbn [fmap option_fmap option_map]. f_equal. lia. }
    rewrite Hrow. eexists _, _. split; [reflexivity|].
    assert (Hcs : citations (removeCitation isoformat current_row self)
                  = delete (Z.to_nat current_row) (citations self)).
    { unfold removeCitation. rewrite H0'.
      apply Z.ltb_lt in Hn as Hn'. rewrite Hn'. cbn [andb].
      apply saveCitations_citations. }
    split; [exact Hcs|]. unfold aligned. rewrite Hcs, length_delete.
    2:{ apply lookup_lt_is_Some. lia. }
    rewrite Haligned.
    pose proof (renumbered_rows (Z.to_nat current_row)
                  (length (citations self))) as Hrows.
    rewrite Z2Nat.id in Hrows by lia. apply Hrows. lia.
  - intros Hneg. unfold window_removeCitation.
    destruct (Z.leb_spec 0 current_row); [lia | reflexivity].
Qed.

(** Saving writes the file of the library when it can, and removes no
    file. *)
Lemma saveCitations_creates self :
  writable self (data_file self) = true ->
  is_Some (home (saveCitations isoformat self) !! data_file self).
Proof.
  intros Hw. unfold saveCitations. rewrite Hw. cbn [with_home home].
  rewrite lookup_insert_eq. eauto.
Qed.

Lemma saveCitations_keeps_files self file_name :
  is_Some (home self !! file_name) ->
  is_Some (home (saveCitations isoformat self) !! file_name).
Proof.
  intros H. unfold saveCitations. destruct (writable _ _); [|exact H].
  cbn [with_home home]. destruct (decide (data_file self = file_name)) as [-> | Hne].
  - rewrite lookup_insert_eq. eauto.
  - rewrite lookup_insert_ne by exact Hne. exact H.
Qed.

(** X22: once an accepted text has been added (or a note appended) in a
    library whose file can be written and is the file of its name, the
    library is in the list of libraries, when its name consists of safe
    characters. *)
Theorem library_listed_after_add now api text_ notes_ self :
  writable self (data_file self) = true ->
  data_file self = library_file (library_name self) ->
  all_chars safe_char (library_name self) = true ->
  (addCitation isoformat now api text_ notes_ self).2 <> PyBool false ->
  library_name self
  ∈ getAvailableLibraries (home (addCitation isoformat now api text_ notes_ self).1).
Proof.
  intros Hw Hfile Hsafe Hresult.
  assert (Hsaved : is_Some (home (addCitation isoformat now api text_ notes_ self).1
                            !! data_file self)).
  { revert Hresult. unfold addCitation.
    destruct (isPubmedCitation text_); cbn [negb snd]; [|congruence].
    destruct (find_existing _ _) as [[j existing]|].
    - destruct (Py.is_empty (Py.strip notes_)); cbn [negb fst snd];
        [congruence|].
      intros _. apply (saveCitations_creates (with_citations _ self)), Hw.
    - intros _. cbn [fst].
      match goal with
      | |- is_Some (home (updateSummaries _ _ (saveCitations _ ?s)) !! _) =>
          set (grown := s)
      end.
      assert (Hg : is_Some (home (saveCitations isoformat grown)
                            !! data_file self))
        by apply (saveCitations_creates grown), Hw.
      destruct (updateSummaries_same_or_saved isoformat api
                  (saveCitations isoformat grown)) as [-> | [cs ->]];
        [exact Hg|].
      apply (saveCitations_keeps_files
               (with_citations cs (saveCitations isoformat grown))), Hg. }
  apply getAvailableLibraries_elem. right.
  rewrite <- (library_of_entry_library_file _ Hsafe) at 1.
  apply list_elem_of_fmap_2, glob_libraries_elem; [exact Hsafe|].
  rewrite <- Hfile. exact Hsaved.
Qed.

End WindowFacts.

(** ** The summary helper's switch *)

Section HelperFacts.

(** X23: the helper is enabled only when the configuration file decodes
    to an object whose ["api_key"] member is a true value for which the
    client can be built; with a missing or unreadable file, or without the
    member, it is disabled and [generateCitationSummaries] returns the
    empty mapping for every batch. *)
Theorem helper_enabled_needs_key client_ok config api batch :
  (helper_enabled client_ok config = true ->
   exists members key,
     config = Some (Document (JObject members))
     /\ member "api_key" members = Some key
     /\ truthy key = true /\ client_ok key = true)
  /\ (config = None \/ config = Some Unreadable
      \/ (exists members, config = Some (Document (JObject members))
                          /\ member "api_key" members = None) ->
      helper_enabled client_ok config = false
      /\ generateCitationSummaries (helper_enabled client_ok config) api batch
         = ∅).
Proof.
  split.
  - unfold helper_enabled, loadApiKey.
    destruct config as [[|[| | | | |members]]|]; try discriminate.
    destruct (member "api_key" members) as [key|] eqn:Hkey; [|discriminate].
    destruct (truthy key) eqn:Ht; [|discriminate].
    intros Hc. exists members, key. repeat split; assumption.
  - intros H.
    assert (Hoff : helper_enabled client_ok config = false).
    { destruct H as [-> | [-> | (members & -> & Hkey)]]; [reflexivity..|].
      unfold helper_enabled, loadApiKey. rewrite Hkey. reflexivity. }
    split; [exact Hoff|]. rewrite Hoff. reflexivity.
Qed.

End HelperFacts.

(** * The further properties on sample data *)

Module OnMoreSamples.

Import NaiveDatetime.

Lemma addCitation_keeps_records_witness :
  exists c',
    citations (Sample.add Sample.zuchero "note" Sample.three_records).1 !! 1%nat
    = Some c'
    /\ extends (Sample.record "second") c'.
Proof.
  apply (addCitation_keeps_records isoformat Sample.now Sample.labels
           Sample.zuchero "note" Sample.three_records 1
           (Sample.record "second")).
  reflexivity.
Defined.

Lemma addCitation_new_record_witness :
  citations (addCitation isoformat Sample.now Sample.labels Sample.zuchero
               " see fig. 2 " (Sample.empty_library false)).1
  = [mkCitation (Py.strip Sample.zuchero) Sample.now
       (extractIdentifier Sample.zuchero) " see fig. 2 " ""].
Proof.
  apply (addCitation_new_record isoformat Sample.now Sample.labels
           Sample.zuchero " see fig. 2 " (Sample.empty_library false)).
  - reflexivity.
  - vm_compute. reflexivity.
  - simpl. constructor.
Defined.

Lemma operations_save_what_they_change_witness :
  clearAll isoformat Sample.three_records = Sample.three_records
  \/ in_sync isoformat (clearAll isoformat Sample.three_records).
Proof.
  apply (operations_save_what_they_change isoformat Sample.three_records).
  - reflexivity.
  - apply step_clearAll.
Defined.

Lemma operations_leave_other_libraries_witness :
  same_library Sample.three_records
    (removeCitation isoformat 1 Sample.three_records).
Proof.
  apply (operations_leave_other_libraries isoformat Sample.three_records).
  apply step_removeCitation.
Defined.

Lemma updateSummaries_only_summaries_witness :
  citations (updateSummaries isoformat MoreSample.offline
               MoreSample.with_provider)
  = citations MoreSample.with_provider.
Proof.
  apply (updateSummaries_only_summaries isoformat MoreSample.offline
           MoreSample.with_provider).
  intros request. reflexivity.
Defined.

Lemma loadCitations_all_or_nothing_witness :
  citations (with_citations [] Sample.over_broken_file) = []
  \/ exists items cs,
       iterate (JArray [JObject [("text", JString "first")]]) = inr items
       /\ citations (with_citations [] Sample.over_broken_file)
          = (citations Sample.over_broken_file ++ cs)%list
       /\ length cs = length items.
Proof.
  apply (loadCitations_all_or_nothing fromisoformat Sample.over_broken_file
           (with_citations [] Sample.over_broken_file)
           (JArray [JObject [("text", JString "first")]])).
  - reflexivity.
  - reflexivity.
Defined.

Lemma switch_away_and_back_witness :
  exists back,
    switchLibrary isoformat fromisoformat "default" MoreSample.switched_away
    = Some back
    /\ citations back = citations Sample.three_records
    /\ library_name back = "default".
Proof.
  apply (switch_away_and_back isoformat fromisoformat
           NaiveDatetimeFacts.fromisoformat_isoformat
           Sample.three_records "other" MoreSample.switched_away).
  - reflexivity.
  - reflexivity.
  - discriminate.
  - reflexivity.
Defined.

Lemma summaries_are_for_the_batch_witness :
  generateCitationSummaries true MoreSample.offline ["first"; "second"] = ∅.
Proof.
  apply (summaries_are_for_the_batch true MoreSample.offline
           ["first"; "second"]).
  right. right. reflexivity.
Defined.

Lemma summary_comes_from_its_line_witness :
  generateCitationSummaries true MoreSample.two_labels ["first"; "second"]
    !! "second"
  = Some "Roe: review".
Proof.
  apply (summary_comes_from_its_line MoreSample.two_labels
           ["first"; "second"]
           ("1. Doe: trial" ++ nl ++ "2. Roe: review") 1 "second").
  - apply NoDup_cons. split.
    + intros H. apply list_elem_of_singleton in H. discriminate.
    + apply NoDup_singleton.
  - reflexivity.
  - reflexivity.
Defined.

Lemma saved_library_is_listed_witness :
  "my_lib" ∈ getAvailableLibraries MoreSample.one_library.
Proof.
  apply (saved_library_is_listed MoreSample.one_library "my_lib").
  - reflexivity.
  - exists Unreadable. vm_compute. reflexivity.
Defined.

Lemma export_writes_every_citation_witness :
  export_order MoreSample.earlier MoreSample.as_stored MoreSample.authors
  = MoreSample.authors.
Proof.
  apply (export_writes_every_citation MoreSample.earlier MoreSample.as_stored
           MoreSample.authors); reflexivity.
Defined.

Lemma export_order_sorted_witness :
  Sorted (fun a b => String.le (extractFirstAuthor (text a))
                               (extractFirstAuthor (text b)))
         (export_order MoreSample.earlier MoreSample.by_author
            MoreSample.authors)
  /\ Sorted (fun a b =>
               MoreSample.earlier (timestamp a) (timestamp b) = false)
            (export_order MoreSample.earlier MoreSample.by_time
               MoreSample.authors).
Proof.
  split.
  - apply (export_order_sorted MoreSample.earlier MoreSample.by_author
             MoreSample.authors); reflexivity.
  - apply (export_order_sorted MoreSample.earlier MoreSample.by_time
             MoreSample.authors); [reflexivity|].
    intros t u. apply SortFacts.ltb_asym.
Defined.

Lemma export_by_author_is_stable_witness :
  List.filter (fun c => String.eqb "abe" (extractFirstAuthor (text c)))
              (export_order MoreSample.earlier MoreSample.by_author
                 MoreSample.authors)
  = List.filter (fun c => String.eqb "abe" (extractFirstAuthor (text c)))
                MoreSample.authors.
Proof.
  apply (export_by_author_is_stable MoreSample.earlier MoreSample.by_author
           MoreSample.authors "abe").
  reflexivity.
Defined.

Lemma listener_emissions_witness :
  Listener.no_repeat "a"
    (Listener.run (Listener.DataChanged <$> ["a"; "b"; "b"; ""; "a"])
       MoreSample.monitoring).2
  /\ Listener.last_text
       (Listener.run (Listener.DataChanged <$> ["a"; "b"; "b"; ""; "a"])
          MoreSample.monitoring).1
     = List.last
         (Listener.run (Listener.DataChanged <$> ["a"; "b"; "b"; ""; "a"])
            MoreSample.monitoring).2 "a".
Proof.
  apply (ListenerFacts.listener_emissions [] ["a"; "b"; "b"; ""; "a"]
           MoreSample.monitoring).
  reflexivity.
Defined.

Lemma clipboard_text_status_witness :
  onNewClipboardText isoformat Sample.now Sample.labels true "note"
    "def f(x): return x" Sample.three_records
  = (Sample.three_records, NoStatus).
Proof.
  apply (clipboard_text_status isoformat Sample.now Sample.labels true "note"
           "def f(x): return x" Sample.three_records).
  left. vm_compute. reflexivity.
Defined.

Lemma window_removal_keeps_rows_aligned_witness :
  exists items' self',
    window_removeCitation isoformat 1 [0; 1; 2]%Z Sample.three_records
    = Some (items', self')
    /\ citations self' = [Sample.record "first"; Sample.record "third"]
    /\ aligned items' self'.
Proof.
  apply (window_removal_keeps_rows_aligned isoformat 1 [0; 1; 2]%Z
           Sample.three_records).
  - reflexivity.
  - simpl. lia.
Defined.

Lemma library_listed_after_add_witness :
  "default"
  ∈ getAvailableLibraries
      (home (addCitation isoformat Sample.now Sample.labels Sample.zuchero ""
               (Sample.empty_library false)).1).
Proof.
  apply (library_listed_after_add isoformat Sample.now Sample.labels
           Sample.zuchero "" (Sample.empty_library false)).
  - reflexivity.
  - reflexivity.
  - reflexivity.
  - vm_compute. discriminate.
Defined.

Lemma helper_enabled_needs_key_witness :
  helper_enabled (fun _ => true)
    (Some (Document (JObject [("model", JString "m")]))) = false
  /\ generateCitationSummaries
       (helper_enabled (fun _ => true)
          (Some (Document (JObject [("model", JString "m")]))))
       Sample.labels ["first"]
     = ∅.
Proof.
  apply (helper_enabled_needs_key (fun _ => true)
           (Some (Document (JObject [("model", JString "m")])))
           Sample.labels ["first"]).
  right. right. exists [("model", JString "m")]. split; reflexivity.
Defined.

End OnMoreSamples.
